(** * MonStim EMG analysis: amplitude windows, voltage binning, session and
      dataset pooling

    A shallow embedding of [emg_transform.py] and of the data handling of
    [EMG_Utils.py] (the classes [EMGSession] and [EMGDataset]).

    Numbers.  The program computes on IEEE doubles.  Here a finite double is
    idealised as an exact rational ([Q]); the one non-finite value the program
    produces on its own, numpy's not-a-number (the mean of an empty array), is
    kept as the constructor [NaN] of [npfloat].  Python's [int(x)] is
    truncation toward zero and [round(x)] is rounding to the nearest integer
    with ties to even; both are written out on [Q].  numpy's square root is
    not closed on [Q], so everything that takes a standard deviation is
    parametric in it (Section variable [np_sqrt]); [Qsqrt_approx] is a
    computable instance for running the definitions.

    The binning example of the specification is computed a second time on
    binary64 itself (module [Float64]).

    Exceptions.  A Python call that can raise returns [except A]. *)

From Stdlib Require Import List ZArith QArith Qabs Qround Lia Lqa Bool.
From Stdlib Require String PrimFloat.
From Stdlib Require Import Permutation Sorted.
Import ListNotations.

Set Implicit Arguments.

Local Open Scope list_scope.
Local Open Scope Q_scope.

(** ** Python exceptions *)

Inductive exn : Type :=
| IndexError          (* a list index out of range *)
| ValueError          (* max() / min() of an empty sequence *)
| ZeroDivisionError.  (* float division by zero *)

Inductive except (A : Type) : Type :=
| Return (a : A)
| Raise (e : exn).

Arguments Return {A} a.
Arguments Raise {A} e.

Definition bind {A B : Type} (m : except A) (k : A -> except B) : except B :=
  match m with
  | Return a => k a
  | Raise e => Raise e
  end.

Notation "x <- m ;; k" := (bind m (fun x => k))
  (at level 61, m at next level, right associativity).

Definition raises {A : Type} (m : except A) : Prop :=
  exists e, m = Raise e.

(** ** Numbers *)

(** A numpy float: a finite value or not-a-number. *)
Inductive npfloat : Type :=
| Fin (q : Q)
| NaN.

(** Equality of numpy floats as values ([Fin (1#2)] and [Fin (2#4)] are the
    same double). *)
Definition npfloat_eq (a b : npfloat) : Prop :=
  match a, b with
  | Fin x, Fin y => x == y
  | NaN, NaN => True
  | _, _ => False
  end.

(** [int(x)] on a float: truncation toward zero. *)
Definition py_int (x : Q) : Z := Z.quot (Qnum x) (Zpos (Qden x)).

(** [round(x)] on a float: nearest integer, ties to the even one. *)
Definition py_round (x : Q) : Z :=
  let f := Qfloor x in
  match Qcompare (x - inject_Z f) (1 # 2) with
  | Lt => f
  | Gt => (f + 1)%Z
  | Eq => if Z.even f then f else (f + 1)%Z
  end.

(** [x < y] on floats. *)
Definition Qltb (x y : Q) : bool := negb (Qle_bool y x).

Fixpoint Qsum (xs : list Q) : Q :=
  match xs with
  | [] => 0
  | x :: xs' => x + Qsum xs'
  end.

Definition Qlen {A : Type} (xs : list A) : Q := inject_Z (Z.of_nat (length xs)).

(** A computable square root on [Q], from below and to six decimals over
    the denominator: sqrt(n/d) = sqrt(n*d) / d. *)
Definition Qsqrt_approx (q : Q) : Q :=
  Qred (Z.sqrt (Qnum q * Zpos (Qden q) * 10 ^ 12) # (Qden q * 1000000)).

(** ** Python sequences *)

(** The bound of a slice, as [slice.indices] computes it for step 1: a
    negative index counts from the end, and the result is clipped to
    [0 .. len]. *)
Definition slice_bound (len : nat) (i : Z) : nat :=
  if (i <? 0)%Z then Z.to_nat (i + Z.of_nat len)
  else Nat.min (Z.to_nat i) len.

(** [xs[a:b]] *)
Definition py_slice {A : Type} (xs : list A) (a b : Z) : list A :=
  let s := slice_bound (length xs) a in
  let e := slice_bound (length xs) b in
  firstn (e - s) (skipn s xs).

(** [xs[i]] for a non-negative index. *)
Definition py_index {A : Type} (xs : list A) (i : nat) : except A :=
  match nth_error xs i with
  | Some x => Return x
  | None => Raise IndexError
  end.

(** ** numpy reductions *)

(** The finite values of an array, or [None] when one of them is [NaN]. *)
Fixpoint finite_values (xs : list npfloat) : option (list Q) :=
  match xs with
  | [] => Some []
  | NaN :: _ => None
  | Fin q :: xs' =>
      match finite_values xs' with
      | Some qs => Some (q :: qs)
      | None => None
      end
  end.

(** Mean of the values of a list: their sum over their number. *)
Definition population_mean (qs : list Q) : Q := Qsum qs / Qlen qs.

(** Mean of the squared deviations from the mean; the divisor is the number
    of values. *)
Definition population_variance (qs : list Q) : Q :=
  let mu := population_mean qs in
  Qsum (map (fun x => (x - mu) * (x - mu)) qs) / Qlen qs.

(** The same with Bessel's correction (numpy's [ddof=1]); the program never
    calls it, it is here to tell the two apart. *)
Definition sample_variance (qs : list Q) : Q :=
  let mu := population_mean qs in
  Qsum (map (fun x => (x - mu) * (x - mu)) qs) / (Qlen qs - 1).

(** [np.mean] of a real array: 0/0, that is not-a-number, when it is empty. *)
Definition array_mean (qs : list Q) : npfloat :=
  match qs with
  | [] => NaN
  | _ => Fin (population_mean qs)
  end.

(** [np.mean(xs)] on a list of numpy floats. *)
Definition np_mean (xs : list npfloat) : npfloat :=
  match finite_values xs with
  | Some qs => array_mean qs
  | None => NaN
  end.

Section Std.

(** numpy's square root. *)
Variable np_sqrt : Q -> Q.

(** [np.std(xs)] with its default [ddof=0]:
    [sqrt(mean(abs(x - x.mean())**2))]. *)
Definition np_std (xs : list npfloat) : npfloat :=
  match finite_values xs with
  | Some [] => NaN
  | Some qs => Fin (np_sqrt (population_variance qs))
  | None => NaN
  end.

End Std.

(** ** Python builtins on sequences *)

Section Sorted.

Variable A : Type.
Variable key : A -> Q.

(** Insertion below the first element whose key is not smaller: an element
    inserted later in the input stays behind its equals. *)
Fixpoint insert_by (x : A) (l : list A) : list A :=
  match l with
  | [] => [x]
  | y :: l' =>
      if Qle_bool (key x) (key y) then x :: y :: l' else y :: insert_by x l'
  end.

(** [sorted(xs, key=key)]: ascending by key and stable.  Python's own
    algorithm is not part of the program; a stable sort has one possible
    result (see [py_sorted_unique]), computed here by insertion. *)
Fixpoint py_sorted (xs : list A) : list A :=
  match xs with
  | [] => []
  | x :: xs' => insert_by x (py_sorted xs')
  end.

End Sorted.

(** [list(set(xs))] for floats: one representative of each value. *)
Fixpoint py_set (xs : list Q) : list Q :=
  match xs with
  | [] => []
  | x :: xs' =>
      if existsb (Qeq_bool x) xs' then py_set xs' else x :: py_set xs'
  end.

(** [enumerate(xs)] *)
Definition enumerate {A : Type} (xs : list A) : list (nat * A) :=
  combine (seq 0 (length xs)) xs.

(** A [for] loop whose body can raise and whose iterations each contribute
    some outputs. *)
Fixpoint for_each {A B : Type} (body : A -> except (list B)) (xs : list A)
  : except (list B) :=
  match xs with
  | [] => Return []
  | x :: xs' =>
      out <- body x ;;
      rest <- for_each body xs' ;;
      Return (out ++ rest)
  end.

(** [max(xs)] and [min(xs)] on a sequence of floats. *)
Definition py_max (xs : list Q) : except Q :=
  match xs with
  | [] => Raise ValueError
  | x :: xs' => Return (fold_left (fun m y => if Qltb m y then y else m) xs' x)
  end.

Definition py_min (xs : list Q) : except Q :=
  match xs with
  | [] => Raise ValueError
  | x :: xs' => Return (fold_left (fun m y => if Qltb y m then y else m) xs' x)
  end.

(** ** Data *)

(** One element of [session_data['recordings']]. *)
Record Recording : Type := {
  stimulus_v : Q;
  channel_data : list (list Q)
}.

(** [round(v / bin_size) * bin_size], the expression both
    [calculate_mean_std] and [EMGDataset.plot_reflex_curves] bin a stimulus
    voltage with. *)
Definition binned_stimulus_v (v bin_size : Q) : except Q :=
  if Qeq_bool bin_size 0 then Raise ZeroDivisionError
  else Return (inject_Z (py_round (v / bin_size)) * bin_size).

(** ** emg_transform.py *)

Module emg_transform.

(** [rectify_emg]: [np.abs(emg_array)]. *)
Definition rectify_emg (emg_array : list Q) : list Q := map Qabs emg_array.

(** [calculate_average_amplitude] *)
Definition calculate_average_amplitude
    (emg_data : list Q) (start_ms end_ms scan_rate : Q) : npfloat :=
  let start_index := py_int (start_ms * scan_rate / 1000) in
  let end_index := py_int (end_ms * scan_rate / 1000) in
  let emg_window := py_slice emg_data start_index end_index in
  let rectified_emg_window := rectify_emg emg_window in
  array_mean rectified_emg_window.

Section MeanStd.

Variable np_sqrt : Q -> Q.
Variables (stimulus_value : Q) (channel_index : nat).
Variables (m_start_ms m_end_ms h_start_ms h_end_ms bin_size scan_rate : Q).

(** The [for recording in recordings] loop of [calculate_mean_std], on the
    two lists it appends to. *)
Fixpoint amplitudes_loop (recordings : list Recording)
    (m_wave_amplitudes h_response_amplitudes : list npfloat)
  : except (list npfloat * list npfloat) :=
  match recordings with
  | [] => Return (m_wave_amplitudes, h_response_amplitudes)
  | recording :: rest =>
      binned <- binned_stimulus_v (stimulus_v recording) bin_size ;;
      if Qeq_bool binned stimulus_value then
        channel_data <- py_index (channel_data recording) channel_index ;;
        let m_wave_amplitude :=
          calculate_average_amplitude channel_data m_start_ms m_end_ms scan_rate in
        let h_response_amplitude :=
          calculate_average_amplitude channel_data h_start_ms h_end_ms scan_rate in
        amplitudes_loop rest (m_wave_amplitudes ++ [m_wave_amplitude])
                             (h_response_amplitudes ++ [h_response_amplitude])
      else amplitudes_loop rest m_wave_amplitudes h_response_amplitudes
  end.

(** [calculate_mean_std] *)
Definition calculate_mean_std (recordings : list Recording)
  : except (npfloat * npfloat * npfloat * npfloat) :=
  amps <- amplitudes_loop recordings [] [] ;;
  let m_wave_amplitudes := fst amps in
  let h_response_amplitudes := snd amps in
  let m_wave_mean := np_mean m_wave_amplitudes in
  let m_wave_std := np_std np_sqrt m_wave_amplitudes in
  let h_response_mean := np_mean h_response_amplitudes in
  let h_response_std := np_std np_sqrt h_response_amplitudes in
  Return (m_wave_mean, m_wave_std, h_response_mean, h_response_std).

End MeanStd.

End emg_transform.

(** ** EMG_Utils.py *)

(** The settings read once from [config.yaml]. *)
Record Config : Type := {
  cfg_m_start : Q;
  cfg_m_end : Q;
  cfg_h_start : Q;
  cfg_h_end : Q;
  cfg_time_window : Q;
  cfg_bin_size : Q
}.

(** What a plotting method hands to matplotlib: the data of each curve and
    the axis it is drawn on.  Titles, legends, the time axis and the window
    flag lines are drawing only and are left out, and with them the
    [channel_names], [m_flags], [h_flags] and [plot_legend] arguments, which
    select nothing else. *)
Inductive artist : Type :=
| Trace (axis : nat) (ydata : list Q) (label_stimulus_v : Q)
| Scatter (axis : nat) (stimulus_voltages : list Q)
    (m_wave_amplitudes h_response_amplitudes : list npfloat)
| MeanStdCurves (axis : nat) (stimulus_voltages : list Q)
    (m_wave_means m_wave_stds h_response_means h_response_stds : list npfloat).

(** [plt.subplots]: one axis when there is one channel, else a row of
    [num_channels] axes, which matplotlib refuses to make empty. *)
Definition subplots (num_channels : nat) : except nat :=
  match num_channels with
  | O => Raise ValueError
  | _ => Return num_channels
  end.

(** [ax] when there is one channel, [axes[channel_index]] otherwise. *)
Definition axis_of (num_channels channel_index : nat) : except nat :=
  if Nat.eqb num_channels 1 then Return O
  else if Nat.ltb channel_index num_channels then Return channel_index
  else Raise IndexError.

Module EMGSession.

(** [session_data['session_info']] *)
Record session_info : Type := {
  info_session_name : String.string;
  info_num_channels : nat;
  info_scan_rate : Q;
  info_num_samples : nat;
  info_stim_duration : Q;
  info_stim_interval : Q;
  info_emg_amp_gains : list Z
}.

(** The unpickled session record. *)
Record session_data : Type := {
  data_session_info : session_info;
  data_recordings : list Recording
}.

(** The attributes of an [EMGSession] object. *)
Record t : Type := {
  session_name : String.string;
  num_channels : nat;
  scan_rate : Q;
  num_samples : nat;
  stim_duration : Q;
  stim_interval : Q;
  emg_amp_gains : list Z;
  recordings : list Recording;
  m_start : Q;
  m_end : Q;
  h_start : Q;
  h_end : Q;
  time_window_ms : Q
}.

(** [__init__], with [load_session_data] on the unpickled record inlined:
    the recordings are stored sorted by stimulus voltage. *)
Definition load_session_data (config : Config) (data : session_data) : t :=
  let info := data_session_info data in
  {| session_name := info_session_name info;
     num_channels := info_num_channels info;
     scan_rate := info_scan_rate info;
     num_samples := info_num_samples info;
     stim_duration := info_stim_duration info;
     stim_interval := info_stim_interval info;
     emg_amp_gains := info_emg_amp_gains info;
     recordings := py_sorted stimulus_v (data_recordings data);
     m_start := cfg_m_start config;
     m_end := cfg_m_end config;
     h_start := cfg_h_start config;
     h_end := cfg_h_end config;
     time_window_ms := cfg_time_window config |}.

(** [int(self.time_window_ms * self.scan_rate / 1000)] *)
Definition num_samples_time_window (self : t) : Z :=
  py_int (time_window_ms self * scan_rate self / 1000).

(** [plot_emg]: every channel of every recording, cut to the time window. *)
Definition plot_emg (self : t) : except (list artist) :=
  _ <- subplots (num_channels self) ;;
  for_each (fun recording =>
    for_each (fun ic =>
      ax <- axis_of (num_channels self) (fst ic) ;;
      Return [Trace ax (py_slice (snd ic) 0 (num_samples_time_window self))
                    (stimulus_v recording)])
      (enumerate (channel_data recording)))
    (recordings self).

(** [plot_emg_rectified]: the same on the rectified channels. *)
Definition plot_emg_rectified (self : t) : except (list artist) :=
  _ <- subplots (num_channels self) ;;
  for_each (fun recording =>
    for_each (fun ic =>
      let rectified_channel_data := emg_transform.rectify_emg (snd ic) in
      ax <- axis_of (num_channels self) (fst ic) ;;
      Return [Trace ax (py_slice rectified_channel_data 0 (num_samples_time_window self))
                    (stimulus_v recording)])
      (enumerate (channel_data recording)))
    (recordings self).

(** The slice of one channel that [plot_emg_suspectedH] inspects:
    [recording['channel_data'][channel_index][int(h_start * scan_rate / 1000):
    int(h_end * scan_rate / 1000)]]. *)
Definition h_window (self : t) (recording : Recording) (channel_index : nat)
  : except (list Q) :=
  samples <- py_index (channel_data recording) channel_index ;;
  Return (py_slice samples (py_int (h_start self * scan_rate self / 1000))
                           (py_int (h_end self * scan_rate self / 1000))).

(** The test of [plot_emg_suspectedH] on one channel of one recording:
    [max(h_window) - min(h_window) > h_threshold]. *)
Definition suspected_h (self : t) (recording : Recording) (channel_index : nat)
    (h_threshold : Q) : except bool :=
  w <- h_window self recording channel_index ;;
  hi <- py_max w ;;
  lo <- py_min w ;;
  Return (Qltb h_threshold (hi - lo)).

(** [plot_emg_suspectedH]: the channels that pass the test. *)
Definition plot_emg_suspectedH (self : t) (h_threshold : Q)
  : except (list artist) :=
  _ <- subplots (num_channels self) ;;
  for_each (fun recording =>
    for_each (fun ic =>
      suspected <- suspected_h self recording (fst ic) h_threshold ;;
      if (suspected : bool) then
        ax <- axis_of (num_channels self) (fst ic) ;;
        Return [Trace ax (py_slice (snd ic) 0 (num_samples_time_window self))
                      (stimulus_v recording)]
      else Return [])
      (enumerate (channel_data recording)))
    (recordings self).

(** The inner loop of [plot_reflex_curves] for one channel, on the three
    lists it appends to. *)
Fixpoint reflex_points (self : t) (channel_index : nat) (rs : list Recording)
    (m_wave_amplitudes h_response_amplitudes : list npfloat)
    (stimulus_voltages : list Q)
  : except (list npfloat * list npfloat * list Q) :=
  match rs with
  | [] => Return (m_wave_amplitudes, h_response_amplitudes, stimulus_voltages)
  | recording :: rest =>
      channel_data <- py_index (channel_data recording) channel_index ;;
      let m_wave_amplitude := emg_transform.calculate_average_amplitude
        channel_data (m_start self) (m_end self) (scan_rate self) in
      let h_response_amplitude := emg_transform.calculate_average_amplitude
        channel_data (h_start self) (h_end self) (scan_rate self) in
      reflex_points self channel_index rest
        (m_wave_amplitudes ++ [m_wave_amplitude])
        (h_response_amplitudes ++ [h_response_amplitude])
        (stimulus_voltages ++ [stimulus_v recording])
  end.

(** [plot_reflex_curves]: per channel, the amplitudes against the stimulus. *)
Definition plot_reflex_curves (self : t) : except (list artist) :=
  _ <- subplots (num_channels self) ;;
  for_each (fun channel_index =>
    pts <- reflex_points self channel_index (recordings self) [] [] [] ;;
    ax <- axis_of (num_channels self) channel_index ;;
    Return [Scatter ax (snd pts) (fst (fst pts)) (snd (fst pts))])
    (seq 0 (num_channels self)).

(** The analysis-window attributes a user may overwrite. *)
Inductive window_attr : Type :=
| attr_m_start | attr_m_end | attr_h_start | attr_h_end | attr_time_window_ms.

Definition setattr (self : t) (a : window_attr) (v : Q) : t :=
  let 'Build_t n c r s d i g rs ms me hs he tw := self in
  match a with
  | attr_m_start => Build_t n c r s d i g rs v me hs he tw
  | attr_m_end => Build_t n c r s d i g rs ms v hs he tw
  | attr_h_start => Build_t n c r s d i g rs ms me v he tw
  | attr_h_end => Build_t n c r s d i g rs ms me hs v tw
  | attr_time_window_ms => Build_t n c r s d i g rs ms me hs he v
  end.

(** What can be done to a loaded session. *)
Inductive call : Type :=
| session_parameters
| call_plot_emg
| call_plot_emg_rectified
| call_plot_emg_suspectedH (h_threshold : Q)
| call_plot_reflex_curves
| call_setattr (a : window_attr) (v : Q).

(** One call on the object: the object afterwards and what the call
    produced (a raised exception leaves the object as the call left it). *)
Definition step (self : t) (c : call) : t * except (list artist) :=
  match c with
  | session_parameters => (self, Return [])
  | call_plot_emg => (self, plot_emg self)
  | call_plot_emg_rectified => (self, plot_emg_rectified self)
  | call_plot_emg_suspectedH h_threshold => (self, plot_emg_suspectedH self h_threshold)
  | call_plot_reflex_curves => (self, plot_reflex_curves self)
  | call_setattr a v => (setattr self a v, Return [])
  end.

(** The object after a sequence of calls. *)
Definition run (self : t) (cs : list call) : t :=
  fold_left (fun s c => fst (step s c)) cs self.

End EMGSession.

Module EMGDataset.

(** The attributes of an [EMGDataset] object. *)
Record t : Type := {
  emg_sessions : list EMGSession.t;
  scan_rate : Q;
  num_channels : nat;
  m_start : Q;
  m_end : Q;
  h_start : Q;
  h_end : Q;
  bin_size : Q
}.

(** [__init__]: [emg_sessions[0]] raises on an empty list. *)
Definition __init__ (config : Config) (sessions : list EMGSession.t)
  : except t :=
  first <- py_index sessions 0 ;;
  Return {| emg_sessions := sessions;
            scan_rate := EMGSession.scan_rate first;
            num_channels := EMGSession.num_channels first;
            m_start := cfg_m_start config;
            m_end := cfg_m_end config;
            h_start := cfg_h_start config;
            h_end := cfg_h_end config;
            bin_size := cfg_bin_size config |}.

(** "Unpack session recordings": [recordings.extend(session.recordings)]
    for each session in turn. *)
Definition unpack_recordings (self : t) : list Recording :=
  fold_left (fun recordings session => recordings ++ EMGSession.recordings session)
            (emg_sessions self) [].

(** [sorted_recordings], a local of [plot_reflex_curves]. *)
Definition sorted_recordings (self : t) : list Recording :=
  py_sorted stimulus_v (unpack_recordings self).

(** [[round(recording['stimulus_v'] / bin_size) * bin_size for recording in rs]] *)
Fixpoint binned_voltages (bin_size : Q) (rs : list Recording) : except (list Q) :=
  match rs with
  | [] => Return []
  | recording :: rest =>
      b <- binned_stimulus_v (stimulus_v recording) bin_size ;;
      bs <- binned_voltages bin_size rest ;;
      Return (b :: bs)
  end.

(** "Get unique binned stimulus voltages". *)
Definition stimulus_voltages (self : t) : except (list Q) :=
  bs <- binned_voltages (bin_size self) (sorted_recordings self) ;;
  Return (py_sorted (fun v => v) (py_set bs)).

Section Curves.

Variable np_sqrt : Q -> Q.

(** The call of [calculate_mean_std] that [plot_reflex_curves] makes for one
    channel and one binned voltage. *)
Definition mean_std_at (self : t) (channel_index : nat) (stimulus_v : Q)
  : except (npfloat * npfloat * npfloat * npfloat) :=
  emg_transform.calculate_mean_std np_sqrt stimulus_v channel_index
    (m_start self) (m_end self) (h_start self) (h_end self)
    (bin_size self) (scan_rate self) (sorted_recordings self).

(** The [for stimulus_v in stimulus_voltages] loop, on the four lists it
    appends to. *)
Fixpoint mean_std_loop (self : t) (channel_index : nat) (voltages : list Q)
    (m_wave_means m_wave_stds h_response_means h_response_stds : list npfloat)
  : except (list npfloat * list npfloat * list npfloat * list npfloat) :=
  match voltages with
  | [] => Return (m_wave_means, m_wave_stds, h_response_means, h_response_stds)
  | stimulus_v :: rest =>
      r <- mean_std_at self channel_index stimulus_v ;;
      let '(m_wave_mean, m_wave_std, h_response_mean, h_response_std) := r in
      mean_std_loop self channel_index rest
        (m_wave_means ++ [m_wave_mean]) (m_wave_stds ++ [m_wave_std])
        (h_response_means ++ [h_response_mean])
        (h_response_stds ++ [h_response_std])
  end.

(** [plot_reflex_curves]: per channel, mean and standard deviation of both
    amplitudes at each binned voltage. *)
Definition plot_reflex_curves (self : t) : except (list artist) :=
  _ <- subplots (num_channels self) ;;
  voltages <- stimulus_voltages self ;;
  for_each (fun channel_index =>
    r <- mean_std_loop self channel_index voltages [] [] [] [] ;;
    let '(m_wave_means, m_wave_stds, h_response_means, h_response_stds) := r in
    ax <- axis_of (num_channels self) channel_index ;;
    Return [MeanStdCurves ax voltages m_wave_means m_wave_stds
                          h_response_means h_response_stds])
    (seq 0 (num_channels self)).

(** A call of the method on the object: the object afterwards and what was
    drawn. *)
Definition call_plot_reflex_curves (self : t) : t * except (list artist) :=
  (self, plot_reflex_curves self).

End Curves.

End EMGDataset.

(** ** The specification's wording, for comparison *)

(** The specification's [windowed_average_amplitude]: sample indices by
    [floor(time_ms * scan_rate / 1000)], the half-open slice between them,
    rectified, arithmetic mean. *)
Definition windowed_slice_floor (channel_samples : list Q)
    (start_ms end_ms scan_rate : Q) : list Q :=
  py_slice channel_samples (Qfloor (start_ms * scan_rate / 1000))
                           (Qfloor (end_ms * scan_rate / 1000)).

(** The slice the program takes: the same with [int] for [floor]. *)
Definition windowed_slice (emg_data : list Q)
    (start_ms end_ms scan_rate : Q) : list Q :=
  py_slice emg_data (py_int (start_ms * scan_rate / 1000))
                    (py_int (end_ms * scan_rate / 1000)).

(** Arithmetic mean of the absolute values. *)
Definition mean_abs (window : list Q) : Q :=
  Qsum (map Qabs window) / Qlen window.

(** The recordings of a list that fall in the bin of [target]. *)
Definition in_bin (bin_size target : Q) (recording : Recording) : bool :=
  Qeq_bool (inject_Z (py_round (stimulus_v recording / bin_size)) * bin_size) target.

Definition matching_set (bin_size target : Q) (recordings : list Recording)
  : list Recording :=
  filter (in_bin bin_size target) recordings.

(** A list is ascending by key. *)
Definition ascending {A : Type} (key : A -> Q) (xs : list A) : Prop :=
  StronglySorted (fun x y => key x <= key y) xs.

(** The elements of a list whose key has the value [k], in their order. *)
Definition with_key {A : Type} (key : A -> Q) (k : Q) (xs : list A) : list A :=
  filter (fun x => Qeq_bool (key x) k) xs.

(** [ys] is a stable sort of [xs] by [key]: the same elements, ascending, and
    those of equal key in the order they had in [xs]. *)
Definition stable_sort_of {A : Type} (key : A -> Q) (xs ys : list A) : Prop :=
  Permutation xs ys /\ ascending key ys /\
  forall k, with_key key k ys = with_key key k xs.

(** The positions [a <= i < b] of a sequence, for non-negative bounds: the
    other way to read "the slice [a, b)". *)
Definition positions_between {A : Type} (xs : list A) (a b : Z) : list A :=
  firstn (Z.to_nat b - Z.to_nat a) (skipn (Z.to_nat a) xs).

(** The windowed average amplitude of one channel of a recording (of no
    samples when the recording has no such channel). *)
Definition amplitude_of (channel_index : nat) (start_ms end_ms scan_rate : Q)
    (recording : Recording) : npfloat :=
  emg_transform.calculate_average_amplitude
    (nth channel_index (channel_data recording) []) start_ms end_ms scan_rate.

(** [hi] is the greatest, [lo] the least value of a window. *)
Definition is_max (hi : Q) (w : list Q) : Prop :=
  In hi w /\ forall y, In y w -> y <= hi.

Definition is_min (lo : Q) (w : list Q) : Prop :=
  In lo w /\ forall y, In y w -> lo <= y.

(** ** Binning on binary64 *)

Module Float64.

Import PrimFloat.

Definition two52 : float := 4503599627370496%float.

(** [float(round(x))] for a finite double [x]: below 2^52 in magnitude,
    adding and subtracting 2^52 rounds to the nearest integer, ties to even
    (the rounding of binary64 addition); from 2^52 on every double is an
    integer. *)
Definition round_half_even (x : float) : float :=
  if ltb (abs x) two52 then
    if ltb x zero then opp (sub (add (opp x) two52) two52)
    else sub (add x two52) two52
  else x.

(** [round(v / bin_size) * bin_size] on doubles. *)
Definition binned_stimulus_v (v bin_size : float) : float :=
  mul (round_half_even (div v bin_size)) bin_size.

(** The doubles that the decimals of the binning example denote. *)
#[local] Set Warnings "-inexact-float".

Definition example_bin_size : float := 0.05%float.

Definition example_voltages : list float := [1.01; 1.04; 1.06]%float.

Definition example_binned : list float := [1; 1.05; 1.05]%float.

End Float64.

(** ** Inputs the definitions are run on *)

Module Examples.

(** Three samples at 1 kHz, so that a time in ms is a sample index. *)
Definition three_samples : list Q := [1; 2; 3].

(** A 200-sample channel [0, 1, -1, 2, -2, ...]. *)
Definition zigzag : list Q :=
  firstn 200 (0 :: flat_map (fun k => [inject_Z (Z.of_nat k); - inject_Z (Z.of_nat k)])
                            (seq 1 100)).

Definition config : Config :=
  {| cfg_m_start := 2; cfg_m_end := 4; cfg_h_start := 4; cfg_h_end := 7;
     cfg_time_window := 10; cfg_bin_size := 5 # 100 |}.

(** The three recordings of the binning example, whatever they recorded. *)
Definition binning_recordings (c1 c2 c3 : list (list Q)) : list Recording :=
  [ {| stimulus_v := 101 # 100; channel_data := c1 |};
    {| stimulus_v := 104 # 100; channel_data := c2 |};
    {| stimulus_v := 106 # 100; channel_data := c3 |} ].

Definition recording_at (v : Q) : Recording :=
  {| stimulus_v := v; channel_data := [zigzag] |}.

Definition info : EMGSession.session_info :=
  {| EMGSession.info_session_name := String.EmptyString;
     EMGSession.info_num_channels := 1;
     EMGSession.info_scan_rate := 10000;
     EMGSession.info_num_samples := 200;
     EMGSession.info_stim_duration := 1 # 10;
     EMGSession.info_stim_interval := 5;
     EMGSession.info_emg_amp_gains := [1000%Z] |}.

Definition session : EMGSession.t :=
  EMGSession.load_session_data config
    {| EMGSession.data_session_info := info;
       EMGSession.data_recordings :=
         [recording_at (106 # 100); recording_at (101 # 100); recording_at (104 # 100)] |}.

Definition dataset : EMGDataset.t :=
  {| EMGDataset.emg_sessions := [session; session];
     EMGDataset.scan_rate := 10000;
     EMGDataset.num_channels := 1;
     EMGDataset.m_start := 2; EMGDataset.m_end := 4;
     EMGDataset.h_start := 4; EMGDataset.h_end := 7;
     EMGDataset.bin_size := 5 # 100 |}.

End Examples.

(** ** Reading results *)

(** A function applied to what a call returns. *)
Definition except_map {A B : Type} (f : A -> B) (m : except A) : except B :=
  match m with
  | Return a => Return (f a)
  | Raise e => Raise e
  end.



(** The axis a channel is drawn on, where there is one. *)
Definition axis_index (num_channels channel_index : nat) : nat :=
  if Nat.eqb num_channels 1 then O else channel_index.



(** ** More inputs *)

Module MixedExamples.

(** A session that recorded two channels, and a dataset built from it and
    from the one-channel session. *)
Definition wide_session : EMGSession.t :=
  EMGSession.load_session_data Examples.config
    {| EMGSession.data_session_info :=
         {| EMGSession.info_session_name := String.EmptyString;
            EMGSession.info_num_channels := 2;
            EMGSession.info_scan_rate := 10000;
            EMGSession.info_num_samples := 200;
            EMGSession.info_stim_duration := 1 # 10;
            EMGSession.info_stim_interval := 5;
            EMGSession.info_emg_amp_gains := [1000%Z; 1000%Z] |};
       EMGSession.data_recordings :=
         [ {| stimulus_v := 102 # 100;
              channel_data := [Examples.zigzag; Examples.zigzag] |} ] |}.


(** The dataset of the two-channel session alone. *)
Definition wide_dataset : EMGDataset.t :=
  {| EMGDataset.emg_sessions := [wide_session];
     EMGDataset.scan_rate := 10000;
     EMGDataset.num_channels := 2;
     EMGDataset.m_start := 2; EMGDataset.m_end := 4;
     EMGDataset.h_start := 4; EMGDataset.h_end := 7;
     EMGDataset.bin_size := 5 # 100 |}.

End MixedExamples.

(** ** Channel names in the dataset's plot *)

Module DatasetTitles.

(** A subplot title: [f'Channel {channel_index}'] or one of the caller's
    names. *)
Inductive title : Type :=
| DefaultTitle (channel_index : nat)
| CustomTitle (name : String.string).

(** "Handle custom channel names parameter if specified": the flag
    [customNames] at the head of [plot_reflex_curves]. *)
Definition customNames (channel_names : list String.string) (num_channels : nat)
  : bool :=
  if Nat.eqb (length channel_names) 0 then false
  else if negb (Nat.eqb (length channel_names) num_channels) then false
  else true.

(** The [set_title] calls of [EMGDataset.plot_reflex_curves] for one
    channel, after its curves are drawn. *)
Definition channel_title (channel_names : list String.string)
    (num_channels channel_index : nat) : except title :=
  if Nat.eqb num_channels 1 then
    let t := DefaultTitle 0 in
    if customNames channel_names num_channels then
      name <- py_index channel_names 0 ;; Return (CustomTitle name)
    else Return t
  else
    t <- match channel_names with
         | [] => Return (DefaultTitle channel_index)
         | _ => name <- py_index channel_names channel_index ;;
                Return (CustomTitle name)
         end ;;
    if customNames channel_names num_channels then
      name <- py_index channel_names channel_index ;; Return (CustomTitle name)
    else Return t.

(** [EMGDataset.plot_reflex_curves(channel_names)]: the curves of
    [EMGDataset.plot_reflex_curves] (which is the call with the default,
    empty list of names), each followed by the title of its subplot. *)
Definition plot_reflex_curves (np_sqrt : Q -> Q) (self : EMGDataset.t)
    (channel_names : list String.string) : except (list (artist * title)) :=
  _ <- subplots (EMGDataset.num_channels self) ;;
  voltages <- EMGDataset.stimulus_voltages self ;;
  for_each (fun channel_index =>
    r <- EMGDataset.mean_std_loop np_sqrt self channel_index voltages [] [] [] [] ;;
    let '(m_wave_means, m_wave_stds, h_response_means, h_response_stds) := r in
    ax <- axis_of (EMGDataset.num_channels self) channel_index ;;
    t <- channel_title channel_names (EMGDataset.num_channels self) channel_index ;;
    Return [(MeanStdCurves ax voltages m_wave_means m_wave_stds
                           h_response_means h_response_stds, t)])
    (seq 0 (EMGDataset.num_channels self)).

End DatasetTitles.

(** * Properties *)

(** ** Sorting *)

Section SortedFacts.

Variable A : Type.
Variable key : A -> Q.

Lemma insert_by_perm (x : A) (l : list A) :
  Permutation (x :: l) (insert_by key x l).
Proof.
  induction l as [|y l IH]; simpl.
  - apply Permutation_refl.
  - destruct (Qle_bool (key x) (key y)).
    + apply Permutation_refl.
    + eapply perm_trans; [apply perm_swap | apply perm_skip, IH].
Qed.

Lemma py_sorted_perm (xs : list A) : Permutation xs (py_sorted key xs).
Proof.
  induction xs as [|x xs IH]; simpl.
  - apply perm_nil.
  - eapply perm_trans; [apply perm_skip, IH | apply insert_by_perm].
Qed.

Lemma insert_by_ascending (x : A) (l : list A) :
  ascending key l -> ascending key (insert_by key x l).
Proof.
  unfold ascending. induction 1 as [|y l Hl IH Hy]; simpl.
  - repeat constructor.
  - destruct (Qle_bool (key x) (key y)) eqn:E.
    + apply Qle_bool_iff in E.
      constructor; [now constructor|].
      constructor; [exact E|].
      rewrite Forall_forall in Hy |- *.
      intros z Hz. eapply Qle_trans; [exact E | now apply Hy].
    + constructor; [exact IH|].
      assert (Hyx : key y <= key x).
      { destruct (Qlt_le_dec (key y) (key x)) as [H|H].
        - now apply Qlt_le_weak.
        - apply Qle_bool_iff in H. congruence. }
      rewrite Forall_forall in Hy |- *.
      intros z Hz.
      apply (Permutation_in _ (Permutation_sym (insert_by_perm x l))) in Hz.
      destruct Hz as [<-|Hz]; [exact Hyx | now apply Hy].
Qed.

Lemma py_sorted_ascending (xs : list A) : ascending key (py_sorted key xs).
Proof.
  induction xs as [|x xs IH]; simpl.
  - constructor.
  - now apply insert_by_ascending.
Qed.

Lemma insert_by_with_key (k : Q) (x : A) (l : list A) :
  with_key key k (insert_by key x l) = with_key key k (x :: l).
Proof.
  induction l as [|y l IH]; simpl; [reflexivity|].
  destruct (Qle_bool (key x) (key y)) eqn:E; [reflexivity|].
  unfold with_key in *. simpl in *. rewrite IH.
  destruct (Qeq_bool (key y) k) eqn:Ey, (Qeq_bool (key x) k) eqn:Ex;
    try reflexivity.
  apply Qeq_bool_iff in Ey, Ex.
  assert (H : Qle_bool (key x) (key y) = true).
  { apply Qle_bool_iff. rewrite Ex, Ey. apply Qle_refl. }
  congruence.
Qed.

Lemma py_sorted_with_key (k : Q) (xs : list A) :
  with_key key k (py_sorted key xs) = with_key key k xs.
Proof.
  induction xs as [|x xs IH]; simpl; [reflexivity|].
  rewrite insert_by_with_key. unfold with_key in *. simpl. now rewrite IH.
Qed.

(** [sorted] returns a stable sort of its argument. *)
Lemma py_sorted_stable_sort (xs : list A) :
  stable_sort_of key xs (py_sorted key xs).
Proof.
  split; [apply py_sorted_perm|].
  split; [apply py_sorted_ascending|].
  intros k. apply py_sorted_with_key.
Qed.

Lemma with_key_in (k : Q) (x : A) (xs : list A) :
  In x (with_key key k xs) <-> In x xs /\ key x == k.
Proof.
  unfold with_key. rewrite filter_In. now rewrite Qeq_bool_iff.
Qed.

Lemma ascending_head_le (x y : A) (l : list A) :
  ascending key (x :: l) -> In y (x :: l) -> key x <= key y.
Proof.
  intros H [<-|Hy]; [apply Qle_refl|].
  apply StronglySorted_inv in H. destruct H as [_ H].
  rewrite Forall_forall in H. now apply H.
Qed.

(** Two ascending lists with the same elements of each key, in the same
    order, are the same list. *)
Lemma ascending_with_key_eq (ys zs : list A) :
  ascending key ys -> ascending key zs ->
  (forall k, with_key key k ys = with_key key k zs) ->
  ys = zs.
Proof.
  revert zs. induction ys as [|y ys IH]; intros zs Hy Hz Hk.
  - destruct zs as [|z zs]; [reflexivity|].
    specialize (Hk (key z)). unfold with_key in Hk. simpl in Hk.
    rewrite (proj2 (Qeq_bool_iff _ _) (Qeq_refl (key z))) in Hk. discriminate.
  - destruct zs as [|z zs].
    + specialize (Hk (key y)). unfold with_key in Hk. simpl in Hk.
      rewrite (proj2 (Qeq_bool_iff _ _) (Qeq_refl (key y))) in Hk. discriminate.
    + assert (Hyz : key y == key z).
      { apply Qle_antisym.
        - apply (ascending_head_le Hy).
          apply (with_key_in (key z)). rewrite Hk. apply with_key_in.
          split; [now left | apply Qeq_refl].
        - apply (ascending_head_le Hz).
          apply (with_key_in (key y)). rewrite <- Hk. apply with_key_in.
          split; [now left | apply Qeq_refl]. }
      assert (Hhd : y = z).
      { specialize (Hk (key y)). unfold with_key in Hk. simpl in Hk.
        rewrite (proj2 (Qeq_bool_iff _ _) (Qeq_refl (key y))) in Hk.
        rewrite (proj2 (Qeq_bool_iff (key z) (key y)) (Qeq_sym _ _ Hyz)) in Hk.
        now injection Hk. }
      subst z. f_equal.
      apply IH.
      * now apply StronglySorted_inv in Hy.
      * now apply StronglySorted_inv in Hz.
      * intros k. specialize (Hk k). unfold with_key in *. simpl in Hk.
        destruct (Qeq_bool (key y) k); [now injection Hk | exact Hk].
Qed.

(** Whatever algorithm [sorted] runs, being a stable sort fixes its result:
    it is the list [py_sorted] computes. *)
Lemma py_sorted_unique (xs ys : list A) :
  stable_sort_of key xs ys -> ys = py_sorted key xs.
Proof.
  intros (_ & Hasc & Hk).
  apply ascending_with_key_eq; [exact Hasc | apply py_sorted_ascending |].
  intros k. now rewrite Hk, py_sorted_with_key.
Qed.

End SortedFacts.

(** ** Rectification *)

(** C9. [rectify_emg] is idempotent: rectifying a rectified sequence changes
    no element. *)
Theorem rectify_emg_idempotent (x : list Q) :
  emg_transform.rectify_emg (emg_transform.rectify_emg x)
  = emg_transform.rectify_emg x.
Proof.
  unfold emg_transform.rectify_emg.
  rewrite map_map. apply map_ext.
  intros [n d]. unfold Qabs. now rewrite Z.abs_idemp.
Qed.

(** ** The session object *)

Lemma step_recordings (self : EMGSession.t) (c : EMGSession.call) :
  EMGSession.recordings (fst (EMGSession.step self c))
  = EMGSession.recordings self.
Proof.
  destruct c; try reflexivity.
  destruct self, a; reflexivity.
Qed.

Lemma run_recordings (cs : list EMGSession.call) (self : EMGSession.t) :
  EMGSession.recordings (EMGSession.run self cs) = EMGSession.recordings self.
Proof.
  unfold EMGSession.run. revert self.
  induction cs as [|c cs IH]; intros self; simpl; [reflexivity|].
  now rewrite IH, step_recordings.
Qed.

(** C1. Whatever the order of the recordings in the session record, the
    loaded session holds them as the stable sort by [stimulus_v] (the same
    recordings, ascending, equal voltages in their original order), and they
    are still that list after any sequence of calls on the object. *)
Theorem load_session_data_sorted_invariant
    (config : Config) (data : EMGSession.session_data)
    (calls : list EMGSession.call) :
  let self := EMGSession.run (EMGSession.load_session_data config data) calls in
  stable_sort_of stimulus_v (EMGSession.data_recordings data)
                 (EMGSession.recordings self).
Proof.
  simpl. rewrite run_recordings. simpl. apply py_sorted_stable_sort.
Qed.

(** ** The dataset object *)

(** C6. Building a dataset from no session raises (Python's [IndexError],
    from [emg_sessions[0]]); from a non-empty list it returns the object,
    holding the sessions and the scan rate and channel count of the first. *)
Theorem dataset_init_empty_or_first (config : Config) :
  EMGDataset.__init__ config [] = Raise IndexError /\
  forall (first : EMGSession.t) (rest : list EMGSession.t),
  exists self,
    EMGDataset.__init__ config (first :: rest) = Return self /\
    EMGDataset.emg_sessions self = first :: rest /\
    EMGDataset.scan_rate self = EMGSession.scan_rate first /\
    EMGDataset.num_channels self = EMGSession.num_channels first.
Proof.
  split; [reflexivity|].
  intros first rest. eexists. split; [reflexivity|]. simpl. auto.
Qed.

Lemma fold_extend_concat (sessions : list EMGSession.t) (acc : list Recording) :
  fold_left (fun recordings session => recordings ++ EMGSession.recordings session)
            sessions acc
  = acc ++ concat (map EMGSession.recordings sessions).
Proof.
  revert acc. induction sessions as [|s ss IH]; intros acc; simpl.
  - now rewrite app_nil_r.
  - now rewrite IH, app_assoc.
Qed.

Lemma unpack_recordings_concat (self : EMGDataset.t) :
  EMGDataset.unpack_recordings self
  = concat (map EMGSession.recordings (EMGDataset.emg_sessions self)).
Proof.
  unfold EMGDataset.unpack_recordings. now rewrite fold_extend_concat.
Qed.

Lemma length_concat_sum {A : Type} (ls : list (list A)) :
  length (concat ls) = list_sum (map (@length A) ls).
Proof.
  induction ls as [|l ls IH]; simpl; [reflexivity|].
  now rewrite length_app, IH.
Qed.

(** C7. A dataset can be built from every non-empty list of sessions, and
    whatever sessions the object holds when the pooled recordings are taken,
    they are the stable sort by [stimulus_v] of the concatenation of those
    sessions' recordings, as many as in all sessions together.  The list is
    computed inside the call from the sessions held at that moment: the
    object has no attribute to keep it in, and the call leaves the object as
    it was. *)
Theorem sorted_recordings_pooled :
  (forall config first rest,
     exists self,
       EMGDataset.__init__ config (first :: rest) = Return self /\
       EMGDataset.emg_sessions self = first :: rest) /\
  forall self : EMGDataset.t,
    let sessions := EMGDataset.emg_sessions self in
    stable_sort_of stimulus_v
      (concat (map EMGSession.recordings sessions))
      (EMGDataset.sorted_recordings self) /\
    length (EMGDataset.sorted_recordings self)
    = list_sum (map (fun s => length (EMGSession.recordings s)) sessions) /\
    EMGDataset.sorted_recordings self
    = py_sorted stimulus_v (concat (map EMGSession.recordings sessions)) /\
    forall np_sqrt, fst (EMGDataset.call_plot_reflex_curves np_sqrt self) = self.
Proof.
  split.
  - intros config first rest. eexists. split; reflexivity.
  - intros self. cbv zeta. unfold EMGDataset.sorted_recordings.
    rewrite unpack_recordings_concat.
    split; [apply py_sorted_stable_sort|].
    split; [|split; reflexivity].
    rewrite <- (Permutation_length (py_sorted_perm stimulus_v _)).
    rewrite length_concat_sum, map_map. reflexivity.
Qed.

(** ** Windowed average amplitude *)

Lemma Qsum_abs_nonneg (w : list Q) : 0 <= Qsum (map Qabs w).
Proof.
  induction w as [|x w IH]; simpl; [apply Qle_refl|].
  pose proof (Qabs_nonneg x). lra.
Qed.

Lemma Qlen_pos {A : Type} (w : list A) : w <> [] -> 0 < Qlen w.
Proof.
  destruct w as [|x w]; [congruence|]. intros _.
  unfold Qlen, Qlt. simpl. lia.
Qed.

Lemma mean_abs_nonneg (w : list Q) : w <> [] -> 0 <= mean_abs w.
Proof.
  intros H. unfold mean_abs.
  apply Qle_shift_div_l; [now apply Qlen_pos|].
  pose proof (Qsum_abs_nonneg w). lra.
Qed.

Lemma array_mean_rectified (w : list Q) :
  w <> [] -> array_mean (emg_transform.rectify_emg w) = Fin (mean_abs w).
Proof.
  destruct w as [|x w]; [congruence|]. intros _.
  unfold emg_transform.rectify_emg, mean_abs.
  cbn [map array_mean]. unfold population_mean, Qlen.
  cbn [length]. now rewrite length_map.
Qed.

Lemma py_int_floor (x : Q) : 0 <= x -> py_int x = Qfloor x.
Proof.
  destruct x as [n d]. unfold py_int, Qfloor, Qle. simpl. intros H.
  apply Z.quot_div_nonneg; lia.
Qed.

(** The claim of C2 as it is worded, with [floor], fails for a window that
    starts at a negative, non-integral sample position: at 1 kHz with
    [start_ms = -1.5], [floor] gives index -2 and [int] gives -1.  On
    [1, 2, 3] with [end_ms = 3] the floor slice is [2, 3] (mean 5/2; or all
    three samples, mean 2, if the bound is clipped instead of counted from
    the end), while the program averages [3] alone. *)
Lemma calculate_average_amplitude_floor_counterexample :
  let samples := Examples.three_samples in
  let start_ms := - (3 # 2) in
  let end_ms := 3 in
  let scan_rate := 1000 in
  0 < scan_rate /\
  windowed_slice_floor samples start_ms end_ms scan_rate = [2; 3] /\
  windowed_slice_floor samples start_ms end_ms scan_rate <> [] /\
  ~ npfloat_eq
      (emg_transform.calculate_average_amplitude samples start_ms end_ms scan_rate)
      (Fin (mean_abs (windowed_slice_floor samples start_ms end_ms scan_rate))) /\
  ~ npfloat_eq
      (emg_transform.calculate_average_amplitude samples start_ms end_ms scan_rate)
      (Fin (mean_abs (positions_between samples
                        (Qfloor (start_ms * scan_rate / 1000))
                        (Qfloor (end_ms * scan_rate / 1000))))).
Proof.
  cbv zeta. split; [reflexivity|].
  split; [reflexivity|].
  split; [discriminate|].
  split; vm_compute; intros H; discriminate H.
Qed.

(** C2, amended. Whenever the slice between the truncated sample indices
    [int(start_ms * scan_rate / 1000)] and [int(end_ms * scan_rate / 1000)]
    is non-empty, [calculate_average_amplitude] returns exactly the
    arithmetic mean of the absolute values of that slice, a non-negative
    number; and for non-negative times and scan rate the truncated indices
    are the floors, so the slice is the one the specification names. *)
Theorem calculate_average_amplitude_mean_abs
    (emg_data : list Q) (start_ms end_ms scan_rate : Q) :
  windowed_slice emg_data start_ms end_ms scan_rate <> [] ->
  emg_transform.calculate_average_amplitude emg_data start_ms end_ms scan_rate
  = Fin (mean_abs (windowed_slice emg_data start_ms end_ms scan_rate)) /\
  0 <= mean_abs (windowed_slice emg_data start_ms end_ms scan_rate) /\
  (0 <= start_ms -> 0 <= end_ms -> 0 <= scan_rate ->
   windowed_slice emg_data start_ms end_ms scan_rate
   = windowed_slice_floor emg_data start_ms end_ms scan_rate).
Proof.
  intros H. split; [|split].
  - unfold emg_transform.calculate_average_amplitude. cbv zeta.
    now apply array_mean_rectified.
  - now apply mean_abs_nonneg.
  - intros Hs He Hr. unfold windowed_slice, windowed_slice_floor.
    rewrite !py_int_floor; [reflexivity| |].
    + apply Qle_shift_div_l; [reflexivity|]. nra.
    + apply Qle_shift_div_l; [reflexivity|]. nra.
Qed.

(** The end-to-end example of the specification: 200 samples
    [0, 1, -1, 2, -2, ...] at 10 kHz, window 2.0 to 4.0 ms, that is samples
    20 to 40. *)
Lemma calculate_average_amplitude_mean_abs_witness :
  windowed_slice Examples.zigzag 2 4 10000 = firstn 20 (skipn 20 Examples.zigzag) /\
  windowed_slice Examples.zigzag 2 4 10000 <> [] /\
  (emg_transform.calculate_average_amplitude Examples.zigzag 2 4 10000
   = Fin (mean_abs (windowed_slice Examples.zigzag 2 4 10000)) /\
   0 <= mean_abs (windowed_slice Examples.zigzag 2 4 10000) /\
   (0 <= 2 -> 0 <= 4 -> 0 <= 10000 ->
    windowed_slice Examples.zigzag 2 4 10000
    = windowed_slice_floor Examples.zigzag 2 4 10000)).
Proof.
  split; [reflexivity|].
  split; [vm_compute; discriminate|].
  apply (calculate_average_amplitude_mean_abs Examples.zigzag 2 4 10000).
  vm_compute; discriminate.
Defined.

(** ** The H-reflex test *)

Lemma Qltb_iff (x y : Q) : Qltb x y = true <-> x < y.
Proof.
  unfold Qltb. rewrite negb_true_iff. split.
  - intros H. apply Qnot_le_lt. intros Hle.
    apply Qle_bool_iff in Hle. congruence.
  - intros H. destruct (Qle_bool y x) eqn:E; [|reflexivity].
    apply Qle_bool_iff in E. exfalso. now apply (Qlt_not_le x y).
Qed.

Lemma fold_max_spec (xs : list Q) (m : Q) :
  let r := fold_left (fun m y => if Qltb m y then y else m) xs m in
  (r = m \/ In r xs) /\ m <= r /\ forall y, In y xs -> y <= r.
Proof.
  revert m. induction xs as [|x xs IH]; intros m; simpl.
  - split; [now left|]. split; [apply Qle_refl | tauto].
  - destruct (Qltb m x) eqn:E.
    + apply Qltb_iff in E. destruct (IH x) as (Hin & Hle & Hall).
      split; [destruct Hin as [->|Hin]; auto|]. split; [lra|].
      intros y [<-|Hy]; [exact Hle | now apply Hall].
    + assert (Hxm : x <= m).
      { apply Qnot_lt_le. intros H. apply Qltb_iff in H. congruence. }
      destruct (IH m) as (Hin & Hle & Hall).
      split; [tauto|]. split; [exact Hle|].
      intros y [<-|Hy]; [lra | now apply Hall].
Qed.

Lemma fold_min_spec (xs : list Q) (m : Q) :
  let r := fold_left (fun m y => if Qltb y m then y else m) xs m in
  (r = m \/ In r xs) /\ r <= m /\ forall y, In y xs -> r <= y.
Proof.
  revert m. induction xs as [|x xs IH]; intros m; simpl.
  - split; [now left|]. split; [apply Qle_refl | tauto].
  - destruct (Qltb x m) eqn:E.
    + apply Qltb_iff in E. destruct (IH x) as (Hin & Hle & Hall).
      split; [destruct Hin as [->|Hin]; auto|]. split; [lra|].
      intros y [<-|Hy]; [exact Hle | now apply Hall].
    + assert (Hxm : m <= x).
      { apply Qnot_lt_le. intros H. apply Qltb_iff in H. congruence. }
      destruct (IH m) as (Hin & Hle & Hall).
      split; [tauto|]. split; [exact Hle|].
      intros y [<-|Hy]; [lra | now apply Hall].
Qed.

Lemma py_max_spec (w : list Q) :
  w <> [] -> exists hi, py_max w = Return hi /\ is_max hi w.
Proof.
  destruct w as [|x xs]; [congruence|]. intros _.
  eexists. split; [reflexivity|].
  destruct (fold_max_spec xs x) as (Hin & Hle & Hall).
  split; [simpl; destruct Hin as [->|Hin]; tauto|].
  intros y [<-|Hy]; [exact Hle | now apply Hall].
Qed.

Lemma py_min_spec (w : list Q) :
  w <> [] -> exists lo, py_min w = Return lo /\ is_min lo w.
Proof.
  destruct w as [|x xs]; [congruence|]. intros _.
  eexists. split; [reflexivity|].
  destruct (fold_min_spec xs x) as (Hin & Hle & Hall).
  split; [simpl; destruct Hin as [->|Hin]; tauto|].
  intros y [<-|Hy]; [exact Hle | now apply Hall].
Qed.

(** C8. On a channel the recording has, the test of [plot_emg_suspectedH]
    looks at the raw samples between the truncated H-window indices: if
    there are none it raises ([ValueError], from [max] of an empty
    sequence) and returns no verdict; otherwise it returns a verdict, which
    is true exactly when the greatest sample of the window exceeds the least
    by more than the threshold. *)
Theorem suspected_h_iff_range_exceeds
    (self : EMGSession.t) (recording : Recording) (channel_index : nat)
    (h_threshold : Q) (samples : list Q) :
  nth_error (channel_data recording) channel_index = Some samples ->
  let w := py_slice samples
             (py_int (EMGSession.h_start self * EMGSession.scan_rate self / 1000))
             (py_int (EMGSession.h_end self * EMGSession.scan_rate self / 1000)) in
  (w = [] ->
   EMGSession.suspected_h self recording channel_index h_threshold
   = Raise ValueError) /\
  (w <> [] ->
   exists hi lo verdict,
     is_max hi w /\ is_min lo w /\
     EMGSession.suspected_h self recording channel_index h_threshold
     = Return verdict /\
     (verdict = true <-> h_threshold < hi - lo)).
Proof.
  intros Hch w.
  unfold EMGSession.suspected_h, EMGSession.h_window, py_index.
  rewrite Hch. cbn [bind]. fold w. split.
  - intros ->. reflexivity.
  - intros Hw.
    destruct (py_max_spec Hw) as (hi & -> & Hhi).
    destruct (py_min_spec Hw) as (lo & -> & Hlo).
    exists hi, lo. eexists. cbn [bind].
    split; [exact Hhi|]. split; [exact Hlo|]. split; [reflexivity|].
    apply Qltb_iff.
Qed.

Lemma suspected_h_iff_range_exceeds_witness :
  let r := Examples.recording_at 1 in
  nth_error (channel_data r) 0 = Some Examples.zigzag /\
  EMGSession.suspected_h Examples.session r 0 (3 # 10) = Return true /\
  let w := py_slice Examples.zigzag
             (py_int (EMGSession.h_start Examples.session
                      * EMGSession.scan_rate Examples.session / 1000))
             (py_int (EMGSession.h_end Examples.session
                      * EMGSession.scan_rate Examples.session / 1000)) in
  (w = [] ->
   EMGSession.suspected_h Examples.session r 0 (3 # 10) = Raise ValueError) /\
  (w <> [] ->
   exists hi lo verdict,
     is_max hi w /\ is_min lo w /\
     EMGSession.suspected_h Examples.session r 0 (3 # 10) = Return verdict /\
     (verdict = true <-> 3 # 10 < hi - lo)).
Proof.
  cbv zeta. split; [reflexivity|]. split; [reflexivity|].
  apply (@suspected_h_iff_range_exceeds Examples.session
           (Examples.recording_at 1) 0%nat (3 # 10) Examples.zigzag).
  reflexivity.
Defined.

(** ** Statistics over a voltage bin *)

Lemma binned_stimulus_v_nonzero (v bin_size : Q) :
  ~ bin_size == 0 ->
  binned_stimulus_v v bin_size
  = Return (inject_Z (py_round (v / bin_size)) * bin_size).
Proof.
  intros H. unfold binned_stimulus_v.
  destruct (Qeq_bool bin_size 0) eqn:E; [|reflexivity].
  apply Qeq_bool_iff in E. contradiction.
Qed.

Lemma finite_values_Fin (qs : list Q) : finite_values (map Fin qs) = Some qs.
Proof.
  induction qs as [|q qs IH]; simpl; [reflexivity|]. now rewrite IH.
Qed.

(** On finite values numpy's mean and standard deviation are the population
    ones: both divide by the number of values. *)
Lemma np_mean_std_population (np_sqrt : Q -> Q) (qs : list Q) :
  qs <> [] ->
  np_mean (map Fin qs) = Fin (Qsum qs / Qlen qs) /\
  np_std np_sqrt (map Fin qs)
  = Fin (np_sqrt (Qsum (map (fun x => (x - Qsum qs / Qlen qs)
                                      * (x - Qsum qs / Qlen qs)) qs)
                  / Qlen qs)).
Proof.
  intros H. unfold np_mean, np_std. rewrite finite_values_Fin.
  destruct qs as [|q qs]; [congruence|]. split; reflexivity.
Qed.

Section MeanStdFacts.

Variables (stimulus_value : Q) (channel_index : nat).
Variables (m_start_ms m_end_ms h_start_ms h_end_ms bin_size scan_rate : Q).

Let loop := emg_transform.amplitudes_loop stimulus_value channel_index
              m_start_ms m_end_ms h_start_ms h_end_ms bin_size scan_rate.
Let matching := matching_set bin_size stimulus_value.
Let m_of := amplitude_of channel_index m_start_ms m_end_ms scan_rate.
Let h_of := amplitude_of channel_index h_start_ms h_end_ms scan_rate.

(** The loop appends, for each recording of the bin and in order, its two
    amplitudes, and nothing else. *)
Lemma amplitudes_loop_matching (recordings : list Recording) :
  ~ bin_size == 0 ->
  (forall r, In r (matching recordings) ->
             (channel_index < length (channel_data r))%nat) ->
  forall ms hs,
    loop recordings ms hs
    = Return (ms ++ map m_of (matching recordings),
              hs ++ map h_of (matching recordings)).
Proof.
  intros Hbin. unfold loop, matching, matching_set.
  induction recordings as [|r rs IH]; intros Hch ms hs.
  - simpl. now rewrite !app_nil_r.
  - cbn [emg_transform.amplitudes_loop filter].
    rewrite (binned_stimulus_v_nonzero _ Hbin). cbn [bind].
    change (Qeq_bool (inject_Z (py_round (stimulus_v r / bin_size)) * bin_size)
                     stimulus_value)
      with (in_bin bin_size stimulus_value r).
    destruct (in_bin bin_size stimulus_value r) eqn:E.
    + assert (Hr : (channel_index < length (channel_data r))%nat).
      { apply Hch. cbn [filter]. rewrite E. now left. }
      unfold py_index.
      destruct (nth_error (channel_data r) channel_index) as [c|] eqn:Hc;
        [|apply nth_error_None in Hc; lia].
      cbn [bind]. rewrite IH.
      * cbn [map]. rewrite <- !app_assoc. cbn [app].
        unfold m_of, h_of, amplitude_of.
        now rewrite (nth_error_nth _ _ _ Hc).
      * intros r' Hr'. apply Hch. cbn [filter]. rewrite E. now right.
    + apply IH. intros r' Hr'. apply Hch. cbn [filter]. now rewrite E.
Qed.

(** Whenever the loop returns, it has appended one amplitude per recording
    of the bin to each list. *)
Lemma amplitudes_loop_length (recordings : list Recording) :
  forall ms hs ms' hs',
    loop recordings ms hs = Return (ms', hs') ->
    length ms' = (length ms + length (matching recordings))%nat /\
    length hs' = (length hs + length (matching recordings))%nat.
Proof.
  unfold loop, matching, matching_set.
  induction recordings as [|r rs IH]; intros ms hs ms' hs' H.
  - simpl in H. injection H as <- <-. simpl. lia.
  - cbn [emg_transform.amplitudes_loop filter] in H |- *.
    unfold binned_stimulus_v in H.
    destruct (Qeq_bool bin_size 0); [discriminate|]. cbn [bind] in H.
    change (Qeq_bool (inject_Z (py_round (stimulus_v r / bin_size)) * bin_size)
                     stimulus_value)
      with (in_bin bin_size stimulus_value r) in H.
    destruct (in_bin bin_size stimulus_value r).
    + destruct (py_index (channel_data r) channel_index); [|discriminate].
      cbn [bind] in H. apply IH in H. rewrite !length_app in H.
      cbn [length] in H |- *. lia.
    + now apply IH in H.
Qed.

End MeanStdFacts.

(** C3. [calculate_mean_std] returns the mean and the standard deviation,
    for the M window and for the H window, of the windowed average
    amplitudes of exactly the recordings whose binned stimulus voltage
    equals the target, in their order; and on finite amplitudes mean and
    standard deviation divide by the number N of those recordings (the
    population formulas). *)
Theorem calculate_mean_std_population
    (np_sqrt : Q -> Q) (recordings : list Recording)
    (stimulus_value : Q) (channel_index : nat)
    (m_start_ms m_end_ms h_start_ms h_end_ms bin_size scan_rate : Q) :
  ~ bin_size == 0 ->
  (forall r, In r (matching_set bin_size stimulus_value recordings) ->
             (channel_index < length (channel_data r))%nat) ->
  let pooled := matching_set bin_size stimulus_value recordings in
  let ms := map (amplitude_of channel_index m_start_ms m_end_ms scan_rate) pooled in
  let hs := map (amplitude_of channel_index h_start_ms h_end_ms scan_rate) pooled in
  emg_transform.calculate_mean_std np_sqrt stimulus_value channel_index
    m_start_ms m_end_ms h_start_ms h_end_ms bin_size scan_rate recordings
  = Return (np_mean ms, np_std np_sqrt ms, np_mean hs, np_std np_sqrt hs) /\
  forall amplitudes qs,
    In amplitudes [ms; hs] -> amplitudes = map Fin qs -> qs <> [] ->
    let N := Qlen qs in
    let mean := Qsum qs / N in
    np_mean amplitudes = Fin mean /\
    np_std np_sqrt amplitudes
    = Fin (np_sqrt (Qsum (map (fun x => (x - mean) * (x - mean)) qs) / N)).
Proof.
  intros Hbin Hch pooled ms hs. split.
  - unfold emg_transform.calculate_mean_std.
    rewrite amplitudes_loop_matching by assumption.
    reflexivity.
  - intros amplitudes qs _ -> Hqs. cbv zeta.
    now apply np_mean_std_population.
Qed.

(** The divisor tells: on the amplitudes 0 and 2 the population variance is
    1 and the one with N-1 is 2. *)
Lemma population_not_sample_variance :
  population_variance [0; 2] == 1 /\ sample_variance [0; 2] == 2.
Proof. split; reflexivity. Qed.

Lemma calculate_mean_std_population_witness :
  let rs := EMGSession.recordings Examples.session in
  ~ (5 # 100) == 0 /\
  (forall r, In r (matching_set (5 # 100) (105 # 100) rs) ->
             (0 < length (channel_data r))%nat) /\
  let pooled := matching_set (5 # 100) (105 # 100) rs in
  let ms := map (amplitude_of 0 2 4 10000) pooled in
  let hs := map (amplitude_of 0 4 7 10000) pooled in
  emg_transform.calculate_mean_std Qsqrt_approx (105 # 100) 0 2 4 4 7
    (5 # 100) 10000 rs
  = Return (np_mean ms, np_std Qsqrt_approx ms,
            np_mean hs, np_std Qsqrt_approx hs) /\
  forall amplitudes qs,
    In amplitudes [ms; hs] -> amplitudes = map Fin qs -> qs <> [] ->
    let N := Qlen qs in
    let mean := Qsum qs / N in
    np_mean amplitudes = Fin mean /\
    np_std Qsqrt_approx amplitudes
    = Fin (Qsqrt_approx (Qsum (map (fun x => (x - mean) * (x - mean)) qs) / N)).
Proof.
  assert (Hbin : ~ (5 # 100) == 0) by (intros H; discriminate H).
  assert (Hch : forall r,
             In r (matching_set (5 # 100) (105 # 100)
                     (EMGSession.recordings Examples.session)) ->
             (0 < length (channel_data r))%nat).
  { intros r Hr. vm_compute in Hr.
    destruct Hr as [<-|[<-|[]]]; simpl; lia. }
  cbv zeta. split; [exact Hbin|]. split; [exact Hch|].
  exact (@calculate_mean_std_population Qsqrt_approx
           (EMGSession.recordings Examples.session) (105 # 100) 0%nat
           2 4 4 7 (5 # 100) 10000 Hbin Hch).
Defined.

(** ** The binning example *)

(** [py_round] returns a nearest integer. *)
Lemma py_round_nearest (x : Q) : Qabs (x - inject_Z (py_round x)) <= 1 # 2.
Proof.
  unfold py_round. cbv zeta.
  pose proof (Qfloor_le x) as Hlo.
  pose proof (Qlt_floor x) as Hhi.
  rewrite inject_Z_plus in Hhi. change (inject_Z 1) with 1 in Hhi.
  assert (Hup : inject_Z (Qfloor x + 1) == inject_Z (Qfloor x) + 1)
    by (rewrite inject_Z_plus; reflexivity).
  apply Qabs_Qle_condition.
  destruct (Qcompare (x - inject_Z (Qfloor x)) (1 # 2)) eqn:E.
  - apply Qeq_alt in E.
    destruct (Z.even (Qfloor x)); [|rewrite Hup]; lra.
  - apply Qlt_alt in E. lra.
  - apply Qgt_alt in E. rewrite Hup. lra.
Qed.

(** C4. With [bin_size = 0.05] the stimulus voltages 1.01, 1.04 and 1.06 are
    binned to 1.00, 1.05 and 1.05 (on the rationals and on the doubles
    nearest to these decimals alike), and for the target 1.05
    [calculate_mean_std] pools the second and third recording and no other:
    its bin holds just these two, it returns what it returns on these two
    alone, and that is the mean and standard deviation of their two
    amplitudes (or [IndexError] when one of the two lacks the channel). *)
Theorem binning_example_pools_second_and_third
    (np_sqrt : Q -> Q) (c1 c2 c3 : list (list Q)) (channel_index : nat)
    (m_start_ms m_end_ms h_start_ms h_end_ms scan_rate : Q) :
  let rs := Examples.binning_recordings c1 c2 c3 in
  let second := {| stimulus_v := 104 # 100; channel_data := c2 |} in
  let third := {| stimulus_v := 106 # 100; channel_data := c3 |} in
  let mean_std := emg_transform.calculate_mean_std np_sqrt (105 # 100)
                    channel_index m_start_ms m_end_ms h_start_ms h_end_ms
                    (5 # 100) scan_rate in
  map (fun r => binned_stimulus_v (stimulus_v r) (5 # 100)) rs
  = [Return (100 # 100); Return (105 # 100); Return (105 # 100)] /\
  map (fun v => Float64.binned_stimulus_v v Float64.example_bin_size)
      Float64.example_voltages
  = Float64.example_binned /\
  matching_set (5 # 100) (105 # 100) rs = [second; third] /\
  mean_std rs = mean_std [second; third] /\
  match nth_error c2 channel_index, nth_error c3 channel_index with
  | Some d2, Some d3 =>
      let ms := [emg_transform.calculate_average_amplitude d2 m_start_ms m_end_ms scan_rate;
                 emg_transform.calculate_average_amplitude d3 m_start_ms m_end_ms scan_rate] in
      let hs := [emg_transform.calculate_average_amplitude d2 h_start_ms h_end_ms scan_rate;
                 emg_transform.calculate_average_amplitude d3 h_start_ms h_end_ms scan_rate] in
      mean_std rs
      = Return (np_mean ms, np_std np_sqrt ms, np_mean hs, np_std np_sqrt hs)
  | _, _ => mean_std rs = Raise IndexError
  end.
Proof.
  cbv zeta.
  split; [reflexivity|]. split; [reflexivity|]. split; [reflexivity|].
  unfold emg_transform.calculate_mean_std, Examples.binning_recordings.
  cbn [emg_transform.amplitudes_loop stimulus_v channel_data].
  assert (Hbin : ~ (5 # 100) == 0) by (intros H; discriminate H).
  rewrite !(binned_stimulus_v_nonzero _ Hbin). cbn [bind].
  change (Qeq_bool (inject_Z (py_round ((101 # 100) / (5 # 100))) * (5 # 100))
                   (105 # 100)) with false.
  change (Qeq_bool (inject_Z (py_round ((104 # 100) / (5 # 100))) * (5 # 100))
                   (105 # 100)) with true.
  change (Qeq_bool (inject_Z (py_round ((106 # 100) / (5 # 100))) * (5 # 100))
                   (105 # 100)) with true.
  cbv iota. split; [reflexivity|].
  unfold py_index.
  destruct (nth_error c2 channel_index) as [d2|]; [|reflexivity].
  cbn [bind app].
  destruct (nth_error c3 channel_index) as [d3|]; reflexivity.
Qed.

(** ** Empty bins and empty windows *)

Lemma finite_values_nan (xs : list npfloat) :
  In NaN xs -> finite_values xs = None.
Proof.
  induction xs as [|x xs IH]; simpl; [tauto|].
  intros [->|H]; [reflexivity|].
  destruct x; [|reflexivity]. now rewrite IH.
Qed.

(** The claim of C5 as it is worded fails: where no recording falls in the
    bin, [calculate_mean_std] returns normally, and what it returns is four
    not-a-number values; where the window lies outside the samples,
    [calculate_average_amplitude] returns not-a-number. *)
Lemma empty_aggregation_counterexample :
  let recordings := [Examples.recording_at (101 # 100)] in
  let result := emg_transform.calculate_mean_std Qsqrt_approx (105 # 100) 0
                  2 4 4 7 (5 # 100) 10000 recordings in
  (matching_set (5 # 100) (105 # 100) recordings = [] /\
   result = Return (NaN, NaN, NaN, NaN) /\ ~ raises result) /\
  (windowed_slice Examples.three_samples 2 4 10000 = [] /\
   emg_transform.calculate_average_amplitude Examples.three_samples 2 4 10000
   = NaN).
Proof.
  cbv zeta. repeat split; try reflexivity.
  intros [e H]. vm_compute in H. discriminate H.
Qed.

(** C5, amended. Where no recording falls in the requested bin,
    [calculate_mean_std] returns normally with not-a-number for all four
    statistics, and where the window slice is empty
    [calculate_average_amplitude] returns not-a-number; a not-a-number
    amplitude makes the mean and the standard deviation over it
    not-a-number as well.  Nothing is raised, and not-a-number is not
    zero. *)
Theorem empty_aggregation_returns_nan (np_sqrt : Q -> Q) :
  (forall recordings stimulus_value channel_index
          m_start_ms m_end_ms h_start_ms h_end_ms bin_size scan_rate,
     ~ bin_size == 0 ->
     matching_set bin_size stimulus_value recordings = [] ->
     emg_transform.calculate_mean_std np_sqrt stimulus_value channel_index
       m_start_ms m_end_ms h_start_ms h_end_ms bin_size scan_rate recordings
     = Return (NaN, NaN, NaN, NaN)) /\
  (forall emg_data start_ms end_ms scan_rate,
     windowed_slice emg_data start_ms end_ms scan_rate = [] ->
     emg_transform.calculate_average_amplitude emg_data start_ms end_ms scan_rate
     = NaN) /\
  (forall amplitudes,
     In NaN amplitudes ->
     np_mean amplitudes = NaN /\ np_std np_sqrt amplitudes = NaN) /\
  NaN <> Fin 0.
Proof.
  split; [|split; [|split]].
  - intros recordings stimulus_value channel_index
           m_start_ms m_end_ms h_start_ms h_end_ms bin_size scan_rate Hbin Hm.
    unfold emg_transform.calculate_mean_std.
    rewrite amplitudes_loop_matching; [now rewrite Hm | exact Hbin |].
    intros r Hr. fold (matching_set bin_size stimulus_value recordings) in Hr.
    rewrite Hm in Hr. destruct Hr.
  - intros emg_data start_ms end_ms scan_rate H.
    unfold emg_transform.calculate_average_amplitude. cbv zeta.
    fold (windowed_slice emg_data start_ms end_ms scan_rate).
    now rewrite H.
  - intros amplitudes H. unfold np_mean, np_std.
    now rewrite (finite_values_nan _ H).
  - discriminate.
Qed.

Lemma empty_aggregation_returns_nan_witness :
  let recordings := [Examples.recording_at (101 # 100)] in
  ~ (5 # 100) == 0 /\
  matching_set (5 # 100) (105 # 100) recordings = [] /\
  windowed_slice Examples.three_samples 2 4 10000 = [] /\
  emg_transform.calculate_mean_std Qsqrt_approx (105 # 100) 0 2 4 4 7
    (5 # 100) 10000 recordings
  = Return (NaN, NaN, NaN, NaN) /\
  emg_transform.calculate_average_amplitude Examples.three_samples 2 4 10000
  = NaN.
Proof.
  assert (Hbin : ~ (5 # 100) == 0) by (intros H; discriminate H).
  cbv zeta. split; [exact Hbin|]. split; [reflexivity|]. split; [reflexivity|].
  split.
  - apply (proj1 (empty_aggregation_returns_nan Qsqrt_approx));
      [exact Hbin | reflexivity].
  - apply (proj1 (proj2 (empty_aggregation_returns_nan Qsqrt_approx))).
    reflexivity.
Defined.

(** ** The dataset's reflex curves *)

Lemma binned_voltages_in (bin_size : Q) (rs : list Recording) (bs : list Q) (v : Q) :
  EMGDataset.binned_voltages bin_size rs = Return bs -> In v bs ->
  exists r, In r rs /\ binned_stimulus_v (stimulus_v r) bin_size = Return v.
Proof.
  revert bs. induction rs as [|r rs IH]; intros bs H Hv; simpl in H.
  - injection H as <-. destruct Hv.
  - destruct (binned_stimulus_v (stimulus_v r) bin_size) as [b|] eqn:Eb;
      [|discriminate].
    cbn [bind] in H.
    destruct (EMGDataset.binned_voltages bin_size rs) as [bs'|]; [|discriminate].
    cbn [bind] in H. injection H as <-.
    destruct Hv as [<-|Hv].
    + exists r. split; [now left | exact Eb].
    + destruct (IH _ eq_refl Hv) as (r' & Hr' & Hb).
      exists r'. split; [now right | exact Hb].
Qed.

Lemma py_set_in (v : Q) (xs : list Q) : In v (py_set xs) -> In v xs.
Proof.
  induction xs as [|x xs IH]; simpl; [tauto|].
  destruct (existsb (Qeq_bool x) xs); simpl; intuition.
Qed.

Lemma binned_in_bin (bin_size v : Q) (r : Recording) :
  binned_stimulus_v (stimulus_v r) bin_size = Return v ->
  in_bin bin_size v r = true.
Proof.
  unfold binned_stimulus_v, in_bin.
  destruct (Qeq_bool bin_size 0); [discriminate|].
  intros H. injection H as <-. apply Qeq_bool_iff, Qeq_refl.
Qed.

(** C10. Every target voltage of the dataset's reflex curves is the binned
    stimulus voltage of one of the pooled recordings, binned with the
    dataset's own bin size; so in the call of [calculate_mean_std] for it
    the bin holds a recording, and whenever the loop of that call gets to
    its end, the lists handed to the mean and the standard deviation are not
    empty. *)
Theorem reflex_curve_bins_not_empty
    (self : EMGDataset.t) (voltages : list Q) (stimulus_value : Q) :
  EMGDataset.stimulus_voltages self = Return voltages ->
  In stimulus_value voltages ->
  (exists recording,
     In recording (EMGDataset.sorted_recordings self) /\
     binned_stimulus_v (stimulus_v recording) (EMGDataset.bin_size self)
     = Return stimulus_value) /\
  matching_set (EMGDataset.bin_size self) stimulus_value
               (EMGDataset.sorted_recordings self) <> [] /\
  forall channel_index m_wave_amplitudes h_response_amplitudes,
    emg_transform.amplitudes_loop stimulus_value channel_index
      (EMGDataset.m_start self) (EMGDataset.m_end self)
      (EMGDataset.h_start self) (EMGDataset.h_end self)
      (EMGDataset.bin_size self) (EMGDataset.scan_rate self)
      (EMGDataset.sorted_recordings self) [] []
    = Return (m_wave_amplitudes, h_response_amplitudes) ->
    m_wave_amplitudes <> [] /\ h_response_amplitudes <> [].
Proof.
  intros Hv Hin. unfold EMGDataset.stimulus_voltages in Hv.
  destruct (EMGDataset.binned_voltages (EMGDataset.bin_size self)
              (EMGDataset.sorted_recordings self)) as [bs|] eqn:Hbs;
    [|discriminate].
  cbn [bind] in Hv. injection Hv as <-.
  apply (Permutation_in _ (Permutation_sym (py_sorted_perm _ _))) in Hin.
  apply py_set_in in Hin.
  destruct (@binned_voltages_in _ _ _ _ Hbs Hin) as (r & Hr & Hb).
  assert (Hne : matching_set (EMGDataset.bin_size self) stimulus_value
                  (EMGDataset.sorted_recordings self) <> []).
  { assert (H : In r (matching_set (EMGDataset.bin_size self) stimulus_value
                        (EMGDataset.sorted_recordings self))).
    { apply filter_In. split; [exact Hr | now apply binned_in_bin]. }
    intros E. rewrite E in H. destruct H. }
  split; [now exists r|]. split; [exact Hne|].
  intros channel_index ms hs Hloop.
  apply amplitudes_loop_length in Hloop. cbn [length] in Hloop.
  destruct (matching_set _ _ _); [congruence|].
  destruct Hloop as [Hm Hh].
  split; intros ->; discriminate.
Qed.

Lemma reflex_curve_bins_not_empty_witness :
  EMGDataset.stimulus_voltages Examples.dataset
  = Return [100 # 100; 105 # 100] /\
  In (105 # 100) [100 # 100; 105 # 100] /\
  matching_set (EMGDataset.bin_size Examples.dataset) (105 # 100)
               (EMGDataset.sorted_recordings Examples.dataset) <> [].
Proof.
  assert (Hv : EMGDataset.stimulus_voltages Examples.dataset
               = Return [100 # 100; 105 # 100]) by reflexivity.
  assert (Hin : In (105 # 100) [100 # 100; 105 # 100])
    by (right; left; reflexivity).
  split; [exact Hv|]. split; [exact Hin|].
  exact (proj1 (proj2 (@reflex_curve_bins_not_empty Examples.dataset
                         [100 # 100; 105 # 100] (105 # 100) Hv Hin))).
Defined.

(** * Further properties of the code *)

Unset Implicit Arguments.

(** ** Loops and slices *)

Lemma for_each_return {A B : Type} (body : A -> except (list B))
    (f : A -> list B) (xs : list A) :
  (forall x, In x xs -> body x = Return (f x)) ->
  for_each body xs = Return (flat_map f xs).
Proof.
  induction xs as [|x xs IH]; intros H; simpl; [reflexivity|].
  rewrite (H x (or_introl eq_refl)). cbn [bind].
  rewrite IH by (intros y Hy; apply H; now right). reflexivity.
Qed.

Lemma for_each_raises {A B : Type} (body : A -> except (list B))
    (xs : list A) (x : A) :
  In x xs -> raises (body x) -> raises (for_each body xs).
Proof.
  induction xs as [|y xs IH]; intros Hin Hx; [destruct Hin|].
  simpl. destruct (body y) as [out|e] eqn:Ey; [|now exists e].
  cbn [bind]. destruct Hin as [->|Hin].
  - destruct Hx as [e He]. congruence.
  - destruct (IH Hin Hx) as [e ->]. now exists e.
Qed.

(** A loop in which only the exception [e] can be raised, and is raised for
    one element, raises [e]. *)
Lemma for_each_raise_only {A B : Type} (body : A -> except (list B))
    (e : exn) (xs : list A) (x : A) :
  (forall y, In y xs -> forall e', body y = Raise e' -> e' = e) ->
  In x xs -> body x = Raise e -> for_each body xs = Raise e.
Proof.
  induction xs as [|y xs IH]; intros Honly Hin Hx; [destruct Hin|].
  simpl. destruct (body y) as [out|e'] eqn:Ey.
  - cbn [bind]. destruct Hin as [->|Hin]; [congruence|].
    rewrite IH; [reflexivity | | exact Hin | exact Hx].
    intros z Hz. apply Honly. now right.
  - cbn [bind]. f_equal. apply (Honly y (or_introl eq_refl) _ Ey).
Qed.

Lemma for_each_map {A B C : Type} (g : B -> C)
    (body1 : A -> except (list B)) (body2 : A -> except (list C))
    (xs : list A) :
  (forall x, In x xs -> body2 x = except_map (map g) (body1 x)) ->
  for_each body2 xs = except_map (map g) (for_each body1 xs).
Proof.
  induction xs as [|x xs IH]; intros H; simpl; [reflexivity|].
  rewrite (H x (or_introl eq_refl)).
  rewrite IH by (intros y Hy; apply H; now right).
  destruct (body1 x) as [o|e]; [|reflexivity]. cbn [except_map bind].
  destruct (for_each body1 xs) as [o'|e]; [|reflexivity].
  cbn [except_map bind]. now rewrite map_app.
Qed.

Lemma py_slice_map {A B : Type} (f : A -> B) (xs : list A) (a b : Z) :
  py_slice (map f xs) a b = map f (py_slice xs a b).
Proof.
  unfold py_slice. cbv zeta.
  now rewrite length_map, skipn_map, firstn_map.
Qed.



Lemma Qabs_idemp (q : Q) : Qabs (Qabs q) = Qabs q.
Proof. destruct q as [n d]. unfold Qabs. now rewrite Z.abs_idemp. Qed.


Lemma flat_map_singleton {A B : Type} (f : A -> B) (xs : list A) :
  flat_map (fun x => [f x]) xs = map f xs.
Proof. induction xs as [|x xs IH]; simpl; [reflexivity | now rewrite IH]. Qed.

Lemma in_enumerate {A : Type} (xs : list A) (i : nat) (x : A) :
  nth_error xs i = Some x -> In (i, x) (enumerate xs).
Proof.
  unfold enumerate.
  assert (G : forall k j, nth_error xs j = Some x ->
                          In ((k + j)%nat, x) (combine (seq k (length xs)) xs)).
  { induction xs as [|y xs IH]; intros k j Hj; [now destruct j|].
    destruct j as [|j]; simpl in Hj |- *.
    - injection Hj as ->. left. f_equal. lia.
    - right. replace (k + S j)%nat with (S k + j)%nat by lia. now apply IH. }
  intros H. exact (G 0%nat i H).
Qed.

Lemma subplots_some (n : nat) : (1 <= n)%nat -> subplots n = Return n.
Proof. destruct n; [lia | reflexivity]. Qed.


Lemma axis_of_only_IndexError (n i : nat) (e : exn) :
  axis_of n i = Raise e -> e = IndexError.
Proof.
  unfold axis_of. destruct (Nat.eqb n 1); [discriminate|].
  destruct (Nat.ltb i n); [discriminate|]. now intros [= <-].
Qed.

(** ** Drawing a session *)










(** ** The suspected-H plot *)



(** X5. The verdict of the H-reflex test only weakens as the threshold
    grows: a channel suspected at one threshold is suspected at every
    smaller one, and at a negative threshold every channel on which the test
    returns is suspected (the range of a window is never negative). *)
Theorem suspected_h_threshold (self : EMGSession.t) (recording : Recording)
    (channel_index : nat) (h_threshold : Q) (verdict : bool) :
  EMGSession.suspected_h self recording channel_index h_threshold
  = Return verdict ->
  (forall smaller, smaller <= h_threshold -> verdict = true ->
     EMGSession.suspected_h self recording channel_index smaller = Return true) /\
  (h_threshold < 0 -> verdict = true).
Proof.
  unfold EMGSession.suspected_h.
  destruct (EMGSession.h_window self recording channel_index) as [w|];
    [|discriminate].
  cbn [bind]. destruct w as [|x w]; [discriminate|].
  assert (Hw : x :: w <> []) by discriminate.
  destruct (py_max_spec Hw) as (hi & -> & Hhi_in & Hhi).
  destruct (py_min_spec Hw) as (lo & -> & Hlo_in & Hlo).
  cbn [bind]. intros [= <-]. split.
  - intros smaller Hs Hv. f_equal.
    apply Qltb_iff. apply Qltb_iff in Hv. lra.
  - intros Hneg. apply Qltb_iff. pose proof (Hlo _ Hhi_in). lra.
Qed.

Lemma suspected_h_threshold_witness :
  let r := Examples.recording_at 1 in
  EMGSession.suspected_h Examples.session r 0 (3 # 10) = Return true /\
  (1 # 10) <= (3 # 10) /\
  EMGSession.suspected_h Examples.session r 0 (1 # 10) = Return true.
Proof.
  assert (H : EMGSession.suspected_h Examples.session
                (Examples.recording_at 1) 0 (3 # 10) = Return true)
    by reflexivity.
  assert (Hle : (1 # 10) <= (3 # 10)) by (unfold Qle; simpl; lia).
  cbv zeta. split; [exact H|]. split; [exact Hle|].
  exact (proj1 (suspected_h_threshold Examples.session
                  (Examples.recording_at 1) 0 (3 # 10) true H)
               (1 # 10) Hle eq_refl).
Defined.

(** X6. One empty H window stops the whole suspected-H plot: if some
    channel of some recording has no sample between the H-window indices,
    [plot_emg_suspectedH] raises and draws nothing, whatever the other
    recordings hold. *)
Theorem plot_emg_suspectedH_empty_window_raises
    (self : EMGSession.t) (h_threshold : Q)
    (recording : Recording) (channel_index : nat) (samples : list Q) :
  In recording (EMGSession.recordings self) ->
  nth_error (channel_data recording) channel_index = Some samples ->
  py_slice samples
    (py_int (EMGSession.h_start self * EMGSession.scan_rate self / 1000))
    (py_int (EMGSession.h_end self * EMGSession.scan_rate self / 1000)) = [] ->
  raises (EMGSession.plot_emg_suspectedH self h_threshold).
Proof.
  intros Hr Hc Hw. unfold EMGSession.plot_emg_suspectedH.
  destruct (subplots (EMGSession.num_channels self)) as [n|e];
    [|now exists e].
  cbn [bind].
  apply for_each_raises with (x := recording); [exact Hr|].
  apply for_each_raises with (x := (channel_index, samples));
    [now apply in_enumerate|].
  cbn [fst]. exists ValueError.
  unfold EMGSession.suspected_h, EMGSession.h_window, py_index.
  rewrite Hc. cbn [bind]. now rewrite Hw.
Qed.

Lemma plot_emg_suspectedH_empty_window_raises_witness :
  let self := EMGSession.setattr Examples.session EMGSession.attr_h_start 30 in
  let r := Examples.recording_at (101 # 100) in
  In r (EMGSession.recordings self) /\
  nth_error (channel_data r) 0 = Some Examples.zigzag /\
  py_slice Examples.zigzag
    (py_int (EMGSession.h_start self * EMGSession.scan_rate self / 1000))
    (py_int (EMGSession.h_end self * EMGSession.scan_rate self / 1000)) = [] /\
  raises (EMGSession.plot_emg_suspectedH self (3 # 10)).
Proof.
  cbv zeta.
  assert (Hr : In (Examples.recording_at (101 # 100))
                 (EMGSession.recordings
                    (EMGSession.setattr Examples.session
                       EMGSession.attr_h_start 30)))
    by (left; reflexivity).
  split; [exact Hr|]. split; [reflexivity|]. split; [reflexivity|].
  exact (plot_emg_suspectedH_empty_window_raises
           (EMGSession.setattr Examples.session EMGSession.attr_h_start 30)
           (3 # 10) (Examples.recording_at (101 # 100)) 0 Examples.zigzag
           Hr eq_refl eq_refl).
Defined.

(** ** Amplitudes *)






(** X7. The windowed average amplitude does not see the sign of the
    samples: on a rectified channel it is what it is on the raw one. *)
Theorem calculate_average_amplitude_of_rectified
    (emg_data : list Q) (start_ms end_ms scan_rate : Q) :
  emg_transform.calculate_average_amplitude
    (emg_transform.rectify_emg emg_data) start_ms end_ms scan_rate
  = emg_transform.calculate_average_amplitude emg_data start_ms end_ms scan_rate.
Proof.
  unfold emg_transform.calculate_average_amplitude, emg_transform.rectify_emg.
  cbv zeta. rewrite py_slice_map, map_map.
  f_equal. apply map_ext. intros q. apply Qabs_idemp.
Qed.



(** ** Binning and statistics *)

(** X9. Binning moves a voltage by at most half a bin: for a non-zero bin
    size the binned value is a whole multiple of the bin size and lies
    within half the bin size of the voltage (in exact arithmetic). *)
Theorem binned_stimulus_v_nearest (v bin_size : Q) :
  ~ bin_size == 0 ->
  exists (k : Z) (b : Q),
    binned_stimulus_v v bin_size = Return b /\
    b = inject_Z k * bin_size /\
    Qabs (b - v) <= Qabs bin_size / 2.
Proof.
  intros Hbin. exists (py_round (v / bin_size)). eexists.
  split; [now apply binned_stimulus_v_nonzero|]. split; [reflexivity|].
  set (k := inject_Z (py_round (v / bin_size))).
  assert (E : k * bin_size - v == - (bin_size * (v / bin_size - k)))
    by (field; exact Hbin).
  rewrite E, Qabs_opp, Qabs_Qmult.
  pose proof (py_round_nearest (v / bin_size)) as Hr. fold k in Hr.
  pose proof (Qabs_nonneg bin_size) as Hb.
  unfold Qdiv. rewrite (Qmult_comm (Qabs bin_size) (/ 2)).
  rewrite (Qmult_comm (Qabs bin_size) (Qabs (v / bin_size - k))).
  apply Qmult_le_compat_r; [exact Hr | exact Hb].
Qed.

Lemma binned_stimulus_v_nearest_witness :
  ~ (5 # 100) == 0 /\
  exists (k : Z) (b : Q),
    binned_stimulus_v (104 # 100) (5 # 100) = Return b /\
    b = inject_Z k * (5 # 100) /\
    Qabs (b - (104 # 100)) <= Qabs (5 # 100) / 2.
Proof.
  assert (Hbin : ~ (5 # 100) == 0) by (intros H; discriminate H).
  split; [exact Hbin|].
  exact (binned_stimulus_v_nearest (104 # 100) (5 # 100) Hbin).
Defined.

Section MeanStdErrors.

Variables (stimulus_value : Q) (channel_index : nat).
Variables (m_start_ms m_end_ms h_start_ms h_end_ms bin_size scan_rate : Q).

Lemma amplitudes_loop_missing_channel
    (recordings : list Recording) (recording : Recording) :
  ~ bin_size == 0 ->
  In recording (matching_set bin_size stimulus_value recordings) ->
  (length (channel_data recording) <= channel_index)%nat ->
  forall ms hs,
    emg_transform.amplitudes_loop stimulus_value channel_index
      m_start_ms m_end_ms h_start_ms h_end_ms bin_size scan_rate
      recordings ms hs
    = Raise IndexError.
Proof.
  intros Hbin. unfold matching_set.
  induction recordings as [|r rs IH]; intros Hin Hlen ms hs; [destruct Hin|].
  cbn [emg_transform.amplitudes_loop filter] in Hin |- *.
  rewrite (binned_stimulus_v_nonzero _ Hbin). cbn [bind].
  change (Qeq_bool (inject_Z (py_round (stimulus_v r / bin_size)) * bin_size)
                   stimulus_value)
    with (in_bin bin_size stimulus_value r).
  destruct (in_bin bin_size stimulus_value r).
  - unfold py_index.
    destruct (nth_error (channel_data r) channel_index) as [c|] eqn:Hc;
      [|reflexivity].
    cbn [bind]. destruct Hin as [->|Hin]; [|now apply IH].
    assert (channel_index < length (channel_data recording))%nat
      by (apply nth_error_Some; congruence).
    lia.
  - now apply IH.
Qed.

End MeanStdErrors.

(** X10. A recording of the requested bin that lacks the requested channel
    makes [calculate_mean_std] raise [IndexError]; recordings of other bins
    are never indexed. *)
Theorem calculate_mean_std_missing_channel
    (np_sqrt : Q -> Q) (recordings : list Recording) (recording : Recording)
    (stimulus_value : Q) (channel_index : nat)
    (m_start_ms m_end_ms h_start_ms h_end_ms bin_size scan_rate : Q) :
  ~ bin_size == 0 ->
  In recording (matching_set bin_size stimulus_value recordings) ->
  (length (channel_data recording) <= channel_index)%nat ->
  emg_transform.calculate_mean_std np_sqrt stimulus_value channel_index
    m_start_ms m_end_ms h_start_ms h_end_ms bin_size scan_rate recordings
  = Raise IndexError.
Proof.
  intros Hbin Hin Hlen. unfold emg_transform.calculate_mean_std.
  now rewrite (amplitudes_loop_missing_channel _ _ _ _ _ _ _ _ _ _
                 Hbin Hin Hlen).
Qed.

Lemma calculate_mean_std_missing_channel_witness :
  let rs := EMGSession.recordings Examples.session in
  let r := Examples.recording_at (104 # 100) in
  ~ (5 # 100) == 0 /\
  In r (matching_set (5 # 100) (105 # 100) rs) /\
  (length (channel_data r) <= 1)%nat /\
  emg_transform.calculate_mean_std Qsqrt_approx (105 # 100) 1 2 4 4 7
    (5 # 100) 10000 rs
  = Raise IndexError.
Proof.
  assert (Hbin : ~ (5 # 100) == 0) by (intros H; discriminate H).
  assert (Hin : In (Examples.recording_at (104 # 100))
                  (matching_set (5 # 100) (105 # 100)
                     (EMGSession.recordings Examples.session)))
    by (left; reflexivity).
  assert (Hlen : (length (channel_data (Examples.recording_at (104 # 100)))
                  <= 1)%nat) by (simpl; lia).
  cbv zeta. split; [exact Hbin|]. split; [exact Hin|]. split; [exact Hlen|].
  exact (calculate_mean_std_missing_channel Qsqrt_approx _ _ (105 # 100) 1%nat
           2 4 4 7 (5 # 100) 10000 Hbin Hin Hlen).
Defined.

(** X11. With a bin size of zero [calculate_mean_std] fails on the first
    recording (division by zero) and returns nothing, whatever the target;
    only on an empty list of recordings does a zero bin size go unnoticed. *)
Theorem calculate_mean_std_zero_bin
    (np_sqrt : Q -> Q) (recordings : list Recording)
    (stimulus_value : Q) (channel_index : nat)
    (m_start_ms m_end_ms h_start_ms h_end_ms bin_size scan_rate : Q) :
  bin_size == 0 ->
  (recordings <> [] ->
   emg_transform.calculate_mean_std np_sqrt stimulus_value channel_index
     m_start_ms m_end_ms h_start_ms h_end_ms bin_size scan_rate recordings
   = Raise ZeroDivisionError) /\
  (recordings = [] ->
   emg_transform.calculate_mean_std np_sqrt stimulus_value channel_index
     m_start_ms m_end_ms h_start_ms h_end_ms bin_size scan_rate recordings
   = Return (NaN, NaN, NaN, NaN)).
Proof.
  intros Hbin. split.
  - destruct recordings as [|r rs]; [congruence|]. intros _.
    unfold emg_transform.calculate_mean_std.
    cbn [emg_transform.amplitudes_loop]. unfold binned_stimulus_v.
    apply Qeq_bool_iff in Hbin. now rewrite Hbin.
  - intros ->. reflexivity.
Qed.

Lemma calculate_mean_std_zero_bin_witness :
  let rs := EMGSession.recordings Examples.session in
  0 == 0 /\ rs <> [] /\
  emg_transform.calculate_mean_std Qsqrt_approx (105 # 100) 0 2 4 4 7
    0 10000 rs
  = Raise ZeroDivisionError.
Proof.
  assert (H0 : 0 == 0) by reflexivity.
  assert (Hne : EMGSession.recordings Examples.session <> [])
    by (vm_compute; discriminate).
  cbv zeta. split; [exact H0|]. split; [exact Hne|].
  exact (proj1 (calculate_mean_std_zero_bin Qsqrt_approx
                  (EMGSession.recordings Examples.session) (105 # 100) 0%nat
                  2 4 4 7 0 10000 H0) Hne).
Defined.

(** X12. A bin that holds one recording has no spread: if exactly one
    recording falls in the bin and both of its windows have samples,
    [calculate_mean_std] returns that recording's two amplitudes as the
    means, and as standard deviations the square root of zero. *)
Theorem calculate_mean_std_single_recording
    (np_sqrt : Q -> Q) (recordings : list Recording) (recording : Recording)
    (stimulus_value : Q) (channel_index : nat)
    (m_start_ms m_end_ms h_start_ms h_end_ms bin_size scan_rate : Q)
    (m_amplitude h_amplitude : Q) :
  ~ bin_size == 0 ->
  matching_set bin_size stimulus_value recordings = [recording] ->
  (channel_index < length (channel_data recording))%nat ->
  amplitude_of channel_index m_start_ms m_end_ms scan_rate recording
  = Fin m_amplitude ->
  amplitude_of channel_index h_start_ms h_end_ms scan_rate recording
  = Fin h_amplitude ->
  exists m_mean m_var h_mean h_var,
    emg_transform.calculate_mean_std np_sqrt stimulus_value channel_index
      m_start_ms m_end_ms h_start_ms h_end_ms bin_size scan_rate recordings
    = Return (Fin m_mean, Fin (np_sqrt m_var), Fin h_mean, Fin (np_sqrt h_var)) /\
    m_mean == m_amplitude /\ m_var == 0 /\
    h_mean == h_amplitude /\ h_var == 0.
Proof.
  intros Hbin Hm Hch Eam Eah.
  unfold emg_transform.calculate_mean_std.
  rewrite amplitudes_loop_matching; [|exact Hbin|].
  - rewrite Hm. cbn [map app bind fst snd]. rewrite Eam, Eah.
    unfold np_mean, np_std. cbn [finite_values array_mean].
    do 4 eexists. split; [reflexivity|].
    unfold population_variance, population_mean.
    change (Qlen [m_amplitude]) with 1. change (Qlen [h_amplitude]) with 1.
    cbn [Qsum map].
    repeat split; field.
  - intros r Hr.
    fold (matching_set bin_size stimulus_value recordings) in Hr.
    rewrite Hm in Hr. destruct Hr as [<-|[]]. exact Hch.
Qed.

Lemma calculate_mean_std_single_recording_witness :
  let rs := EMGSession.recordings Examples.session in
  let r := Examples.recording_at (101 # 100) in
  ~ (5 # 100) == 0 /\
  matching_set (5 # 100) (100 # 100) rs = [r] /\
  (0 < length (channel_data r))%nat /\
  amplitude_of 0 2 4 10000 r = Fin (300 # 20) /\
  amplitude_of 0 4 7 10000 r = Fin (825 # 30) /\
  exists m_mean m_var h_mean h_var,
    emg_transform.calculate_mean_std Qsqrt_approx (100 # 100) 0 2 4 4 7
      (5 # 100) 10000 rs
    = Return (Fin m_mean, Fin (Qsqrt_approx m_var),
              Fin h_mean, Fin (Qsqrt_approx h_var)) /\
    m_mean == 300 # 20 /\ m_var == 0 /\
    h_mean == 825 # 30 /\ h_var == 0.
Proof.
  assert (Hbin : ~ (5 # 100) == 0) by (intros H; discriminate H).
  assert (Hm : matching_set (5 # 100) (100 # 100)
                 (EMGSession.recordings Examples.session)
               = [Examples.recording_at (101 # 100)]) by reflexivity.
  assert (Hch : (0 < length (channel_data (Examples.recording_at (101 # 100))))%nat)
    by (simpl; lia).
  assert (Eam : amplitude_of 0 2 4 10000 (Examples.recording_at (101 # 100))
                = Fin (300 # 20)) by reflexivity.
  assert (Eah : amplitude_of 0 4 7 10000 (Examples.recording_at (101 # 100))
                = Fin (825 # 30)) by reflexivity.
  cbv zeta. repeat (split; [assumption|]).
  exact (calculate_mean_std_single_recording Qsqrt_approx _ _ (100 # 100) 0%nat
           2 4 4 7 (5 # 100) 10000 (300 # 20) (825 # 30) Hbin Hm Hch Eam Eah).
Defined.

(** ** The dataset's voltage levels *)

Lemma filter_none {A : Type} (f : A -> bool) (l : list A) :
  (forall y, In y l -> f y = false) -> filter f l = [].
Proof.
  induction l as [|y l IH]; intros H; simpl; [reflexivity|].
  rewrite (H y (or_introl eq_refl)). apply IH. intros z Hz. apply H. now right.
Qed.

Lemma py_set_one_per_value (k : Q) (xs : list Q) :
  (length (with_key (fun v => v) k (py_set xs)) <= 1)%nat.
Proof.
  induction xs as [|x xs IH]; simpl; [lia|].
  destruct (existsb (Qeq_bool x) xs) eqn:E; [exact IH|].
  unfold with_key in *. cbn [filter].
  destruct (Qeq_bool x k) eqn:Ex; [|exact IH].
  rewrite filter_none; [simpl; lia|].
  intros y Hy. apply py_set_in in Hy.
  destruct (Qeq_bool y k) eqn:Ey; [|reflexivity].
  apply Qeq_bool_iff in Ex, Ey.
  assert (Hxy : Qeq_bool x y = true)
    by (apply Qeq_bool_iff; rewrite Ex, Ey; reflexivity).
  assert (Hex : existsb (Qeq_bool x) xs = true)
    by (apply existsb_exists; now exists y).
  congruence.
Qed.

Lemma py_set_representative (b : Q) (xs : list Q) :
  In b xs -> exists v, In v (py_set xs) /\ v == b.
Proof.
  revert b. induction xs as [|x xs IH]; intros b Hin; [destruct Hin|].
  simpl. destruct (existsb (Qeq_bool x) xs) eqn:E.
  - destruct Hin as [<-|Hin]; [|now apply IH].
    apply existsb_exists in E. destruct E as (y & Hy & Exy).
    apply Qeq_bool_iff in Exy.
    destruct (IH y Hy) as (v & Hv & Evy). exists v. split; [exact Hv|].
    now rewrite Evy, Exy.
  - destruct Hin as [<-|Hin].
    + exists x. split; [now left | reflexivity].
    + destruct (IH b Hin) as (v & Hv & Ev). exists v. split; [now right | exact Ev].
Qed.

Lemma ascending_one_per_value_strict (l : list Q) :
  ascending (fun v => v) l ->
  (forall k, (length (with_key (fun v => v) k l) <= 1)%nat) ->
  StronglySorted Qlt l.
Proof.
  unfold ascending. induction 1 as [|x l Hl IH Hx]; intros Hone.
  - constructor.
  - constructor.
    + apply IH. intros k. specialize (Hone k). unfold with_key in *.
      cbn [filter] in Hone. destruct (Qeq_bool x k); simpl in Hone; lia.
    + rewrite Forall_forall in Hx |- *. intros y Hy.
      destruct (Qlt_le_dec x y) as [Hlt|Hle]; [exact Hlt|].
      exfalso. assert (Exy : y == x) by (apply Qle_antisym; auto).
      specialize (Hone x). unfold with_key in Hone. cbn [filter] in Hone.
      rewrite (proj2 (Qeq_bool_iff x x) (Qeq_refl x)) in Hone.
      assert (Hy' : In y (filter (fun v => Qeq_bool v x) l))
        by (apply filter_In; split; [exact Hy | now apply Qeq_bool_iff]).
      destruct (filter (fun v => Qeq_bool v x) l); [destruct Hy'|].
      simpl in Hone. lia.
Qed.

Lemma voltages_strictly_sorted (self : EMGDataset.t) (voltages : list Q) :
  EMGDataset.stimulus_voltages self = Return voltages ->
  StronglySorted Qlt voltages.
Proof.
  unfold EMGDataset.stimulus_voltages.
  destruct (EMGDataset.binned_voltages _ _) as [bs|]; [|discriminate].
  cbn [bind]. intros [= <-].
  apply ascending_one_per_value_strict; [apply py_sorted_ascending|].
  intros k. rewrite py_sorted_with_key. apply py_set_one_per_value.
Qed.

(** X13. The binned voltage levels of a dataset are strictly ascending: no
    level occurs twice, so every bin is one point of the curve. *)
Theorem stimulus_voltages_strictly_ascending
    (self : EMGDataset.t) (voltages : list Q) :
  EMGDataset.stimulus_voltages self = Return voltages ->
  StronglySorted Qlt voltages.
Proof.
  intros H. unfold EMGDataset.stimulus_voltages in H.
  destruct (EMGDataset.binned_voltages _ _) as [bs|]; [|discriminate].
  cbn [bind] in H. injection H as <-.
  apply ascending_one_per_value_strict; [apply py_sorted_ascending|].
  intros k. rewrite py_sorted_with_key. apply py_set_one_per_value.
Qed.

Lemma stimulus_voltages_strictly_ascending_witness :
  EMGDataset.stimulus_voltages Examples.dataset
  = Return [100 # 100; 105 # 100] /\
  StronglySorted Qlt [100 # 100; 105 # 100].
Proof.
  assert (H : EMGDataset.stimulus_voltages Examples.dataset
              = Return [100 # 100; 105 # 100]) by reflexivity.
  split; [exact H|].
  exact (stimulus_voltages_strictly_ascending Examples.dataset _ H).
Defined.

Lemma binned_voltages_of (bin_size : Q) (rs : list Recording) (bs : list Q)
    (r : Recording) :
  EMGDataset.binned_voltages bin_size rs = Return bs -> In r rs ->
  exists b, binned_stimulus_v (stimulus_v r) bin_size = Return b /\ In b bs.
Proof.
  revert bs. induction rs as [|r' rs IH]; intros bs H Hr; [destruct Hr|].
  simpl in H.
  destruct (binned_stimulus_v (stimulus_v r') bin_size) as [b|] eqn:Eb;
    [|discriminate].
  cbn [bind] in H.
  destruct (EMGDataset.binned_voltages bin_size rs) as [bs'|]; [|discriminate].
  cbn [bind] in H. injection H as <-.
  destruct Hr as [->|Hr].
  - exists b. split; [exact Eb | now left].
  - destruct (IH _ eq_refl Hr) as (b' & Hb' & Hin).
    exists b'. split; [exact Hb' | now right].
Qed.

Lemma strictly_sorted_eq_or_lt (l : list Q) (v w : Q) :
  StronglySorted Qlt l -> In v l -> In w l -> v = w \/ v < w \/ w < v.
Proof.
  induction 1 as [|x l Hl IH Hx]; intros Hv Hw; [destruct Hv|].
  rewrite Forall_forall in Hx.
  destruct Hv as [<-|Hv], Hw as [<-|Hw]; auto.
Qed.

Lemma in_bin_of_binned (bin_size b v : Q) (r : Recording) :
  binned_stimulus_v (stimulus_v r) bin_size = Return b -> v == b ->
  in_bin bin_size v r = true.
Proof.
  unfold binned_stimulus_v, in_bin.
  destruct (Qeq_bool bin_size 0); [discriminate|].
  intros [= <-] E. apply Qeq_bool_iff. now symmetry.
Qed.

Lemma voltages_level_of_recording
    (self : EMGDataset.t) (voltages : list Q) (recording : Recording) :
  EMGDataset.stimulus_voltages self = Return voltages ->
  In recording (EMGDataset.sorted_recordings self) ->
  exists level,
    In level voltages /\
    in_bin (EMGDataset.bin_size self) level recording = true.
Proof.
  intros Hv Hr. unfold EMGDataset.stimulus_voltages in Hv.
  destruct (EMGDataset.binned_voltages _ _) as [bs|] eqn:Hbs; [|discriminate].
  cbn [bind] in Hv. injection Hv as <-.
  destruct (binned_voltages_of _ _ _ _ Hbs Hr) as (b & Hb & Hin).
  destruct (py_set_representative _ _ Hin) as (level & Hlevel & Elevel).
  exists level. split.
  - apply (Permutation_in _ (py_sorted_perm _ _)). exact Hlevel.
  - exact (in_bin_of_binned _ _ _ _ Hb Elevel).
Qed.

(** X14. The voltage levels split the pooled recordings: every pooled
    recording falls in the bin of exactly one level of the curve. *)
Theorem stimulus_voltages_partition
    (self : EMGDataset.t) (voltages : list Q) (recording : Recording) :
  EMGDataset.stimulus_voltages self = Return voltages ->
  In recording (EMGDataset.sorted_recordings self) ->
  exists level,
    In level voltages /\
    in_bin (EMGDataset.bin_size self) level recording = true /\
    forall other,
      In other voltages ->
      in_bin (EMGDataset.bin_size self) other recording = true ->
      other = level.
Proof.
  intros Hv Hr.
  destruct (voltages_level_of_recording self voltages recording Hv Hr)
    as (level & Hl & Hbin).
  exists level. split; [exact Hl|]. split; [exact Hbin|].
  intros other Ho Hbin'.
  assert (Eo : other == level).
  { unfold in_bin in Hbin, Hbin'. apply Qeq_bool_iff in Hbin, Hbin'.
    now rewrite <- Hbin, <- Hbin'. }
  pose proof (voltages_strictly_sorted self voltages Hv) as Hstrict.
  destruct (strictly_sorted_eq_or_lt _ _ _ Hstrict Ho Hl) as [E|[E|E]];
    [exact E | |]; rewrite Eo in E; exfalso; exact (Qlt_irrefl _ E).
Qed.

Lemma stimulus_voltages_partition_witness :
  let r := Examples.recording_at (104 # 100) in
  EMGDataset.stimulus_voltages Examples.dataset
  = Return [100 # 100; 105 # 100] /\
  In r (EMGDataset.sorted_recordings Examples.dataset) /\
  exists level,
    In level [100 # 100; 105 # 100] /\
    in_bin (EMGDataset.bin_size Examples.dataset) level r = true /\
    forall other,
      In other [100 # 100; 105 # 100] ->
      in_bin (EMGDataset.bin_size Examples.dataset) other r = true ->
      other = level.
Proof.
  assert (H : EMGDataset.stimulus_voltages Examples.dataset
              = Return [100 # 100; 105 # 100]) by reflexivity.
  assert (Hr : In (Examples.recording_at (104 # 100))
                 (EMGDataset.sorted_recordings Examples.dataset))
    by (vm_compute; right; right; left; reflexivity).
  cbv zeta. split; [exact H|]. split; [exact Hr|].
  exact (stimulus_voltages_partition Examples.dataset _ _ H Hr).
Defined.

(** ** The dataset's reflex curves, as drawn *)

Lemma for_each_shape {A B : Type} (P : B -> Prop)
    (body : A -> except (list B)) (xs : list A) :
  (forall x, In x xs -> forall o, body x = Return o ->
     exists b, o = [b] /\ P b) ->
  forall out, for_each body xs = Return out ->
    length out = length xs /\ Forall P out.
Proof.
  induction xs as [|x xs IH]; intros H out Hout; simpl in Hout.
  - injection Hout as <-. split; [reflexivity | constructor].
  - destruct (body x) as [o|] eqn:Eo; [|discriminate]. cbn [bind] in Hout.
    destruct (for_each body xs) as [rest|] eqn:Er; [|discriminate].
    cbn [bind] in Hout. injection Hout as <-.
    destruct (H x (or_introl eq_refl) o Eo) as (b & -> & Hb).
    destruct (IH (fun y Hy => H y (or_intror Hy)) rest eq_refl) as [Hlen Hall].
    split; [simpl; now rewrite Hlen | now constructor].
Qed.



Section DatasetCurves.

Variable np_sqrt : Q -> Q.
Variable self : EMGDataset.t.
Variable channel_index : nat.


Lemma mean_std_loop_length (voltages : list Q) :
  forall a b c d a' b' c' d',
    EMGDataset.mean_std_loop np_sqrt self channel_index voltages a b c d
    = Return (a', b', c', d') ->
    length a' = (length a + length voltages)%nat /\
    length b' = (length b + length voltages)%nat /\
    length c' = (length c + length voltages)%nat /\
    length d' = (length d + length voltages)%nat.
Proof.
  induction voltages as [|v vs IH]; intros a b c d a' b' c' d' H.
  - simpl in H. injection H as <- <- <- <-. simpl. lia.
  - cbn [EMGDataset.mean_std_loop] in H.
    destruct (EMGDataset.mean_std_at np_sqrt self channel_index v)
      as [[[[mm ms] hm] hs]|]; [|discriminate].
    cbn [bind] in H. apply IH in H. rewrite !length_app in H.
    cbn [length] in H |- *. lia.
Qed.



End DatasetCurves.

(** X15. When the dataset's [plot_reflex_curves] returns, it has drawn one
    set of curves per channel, each over the dataset's voltage levels and
    with one mean and one standard deviation, for the M and for the H
    window, at every level. *)
Theorem dataset_plot_reflex_curves_shape
    (np_sqrt : Q -> Q) (self : EMGDataset.t) (drawn : list artist) :
  EMGDataset.plot_reflex_curves np_sqrt self = Return drawn ->
  exists voltages,
    EMGDataset.stimulus_voltages self = Return voltages /\
    length drawn = EMGDataset.num_channels self /\
    forall curve, In curve drawn ->
      exists ax m_means m_stds h_means h_stds,
        curve = MeanStdCurves ax voltages m_means m_stds h_means h_stds /\
        length m_means = length voltages /\
        length m_stds = length voltages /\
        length h_means = length voltages /\
        length h_stds = length voltages.
Proof.
  unfold EMGDataset.plot_reflex_curves.
  destruct (subplots (EMGDataset.num_channels self)); [|discriminate].
  cbn [bind].
  destruct (EMGDataset.stimulus_voltages self) as [voltages|]; [|discriminate].
  cbn [bind]. intros H. exists voltages. split; [reflexivity|].
  apply for_each_shape with
    (P := fun curve => exists ax m_means m_stds h_means h_stds,
        curve = MeanStdCurves ax voltages m_means m_stds h_means h_stds /\
        length m_means = length voltages /\
        length m_stds = length voltages /\
        length h_means = length voltages /\
        length h_stds = length voltages) in H.
  - destruct H as [Hlen Hall]. rewrite length_seq in Hlen.
    split; [exact Hlen|]. now apply Forall_forall.
  - intros i _ o Ho.
    destruct (EMGDataset.mean_std_loop np_sqrt self i voltages [] [] [] [])
      as [[[[mm ms] hm] hs]|] eqn:E; [|discriminate].
    cbn [bind] in Ho.
    destruct (axis_of (EMGDataset.num_channels self) i) as [ax|];
      [|discriminate].
    cbn [bind] in Ho. injection Ho as <-.
    apply mean_std_loop_length in E. cbn [length] in E.
    eexists. split; [reflexivity|]. exists ax, mm, ms, hm, hs.
    split; [reflexivity|]. lia.
Qed.

Lemma dataset_plot_reflex_curves_shape_witness :
  exists drawn,
    EMGDataset.plot_reflex_curves Qsqrt_approx Examples.dataset = Return drawn /\
    exists voltages,
      EMGDataset.stimulus_voltages Examples.dataset = Return voltages /\
      length drawn = EMGDataset.num_channels Examples.dataset /\
      forall curve, In curve drawn ->
        exists ax m_means m_stds h_means h_stds,
          curve = MeanStdCurves ax voltages m_means m_stds h_means h_stds /\
          length m_means = length voltages /\
          length m_stds = length voltages /\
          length h_means = length voltages /\
          length h_stds = length voltages.
Proof.
  eexists. split; [vm_compute; reflexivity|].
  apply (dataset_plot_reflex_curves_shape Qsqrt_approx Examples.dataset).
  vm_compute; reflexivity.
Defined.



(** ** One session in a dataset *)

Lemma py_sorted_of_ascending {A : Type} (key : A -> Q) (xs : list A) :
  ascending key xs -> py_sorted key xs = xs.
Proof.
  intros H. symmetry. apply py_sorted_unique.
  split; [apply Permutation_refl|]. split; [exact H | reflexivity].
Qed.

(** X17. Pooling does not disturb a single session: a dataset that holds
    one loaded session (whatever has been called on it since) pools exactly
    that session's recordings, in the session's own order. *)
Theorem sorted_recordings_single_session
    (config : Config) (data : EMGSession.session_data)
    (calls : list EMGSession.call) (self : EMGDataset.t) :
  EMGDataset.emg_sessions self
  = [EMGSession.run (EMGSession.load_session_data config data) calls] ->
  EMGDataset.sorted_recordings self
  = EMGSession.recordings (EMGSession.load_session_data config data).
Proof.
  intros H. unfold EMGDataset.sorted_recordings.
  rewrite unpack_recordings_concat, H. cbn [map concat].
  rewrite app_nil_r, run_recordings.
  apply py_sorted_of_ascending. cbn [EMGSession.load_session_data EMGSession.recordings].
  apply py_sorted_ascending.
Qed.

Lemma sorted_recordings_single_session_witness :
  let self :=
    {| EMGDataset.emg_sessions :=
         [EMGSession.run MixedExamples.wide_session [EMGSession.call_plot_emg]];
       EMGDataset.scan_rate := 10000;
       EMGDataset.num_channels := 2;
       EMGDataset.m_start := 2; EMGDataset.m_end := 4;
       EMGDataset.h_start := 4; EMGDataset.h_end := 7;
       EMGDataset.bin_size := 5 # 100 |} in
  EMGDataset.sorted_recordings self
  = EMGSession.recordings MixedExamples.wide_session.
Proof.
  cbv zeta. unfold MixedExamples.wide_session.
  apply (sorted_recordings_single_session Examples.config _
           [EMGSession.call_plot_emg]).
  reflexivity.
Defined.

(** ** The session's reflex curves *)

Section ReflexPoints.

Variable self : EMGSession.t.
Variable channel_index : nat.

Lemma reflex_points_all (rs : list Recording) :
  (forall r, In r rs -> (channel_index < length (channel_data r))%nat) ->
  forall ms hs vs,
    EMGSession.reflex_points self channel_index rs ms hs vs
    = Return
        (ms ++ map (amplitude_of channel_index (EMGSession.m_start self)
                      (EMGSession.m_end self) (EMGSession.scan_rate self)) rs,
         hs ++ map (amplitude_of channel_index (EMGSession.h_start self)
                      (EMGSession.h_end self) (EMGSession.scan_rate self)) rs,
         vs ++ map stimulus_v rs).
Proof.
  induction rs as [|r rs IH]; intros Hch ms hs vs.
  - simpl. now rewrite !app_nil_r.
  - cbn [EMGSession.reflex_points]. unfold py_index.
    destruct (nth_error (channel_data r) channel_index) as [c|] eqn:Hc.
    + cbn [bind]. rewrite IH by (intros r' Hr'; apply Hch; now right).
      cbn [map]. rewrite <- !app_assoc. cbn [app].
      unfold amplitude_of. now rewrite (nth_error_nth _ _ _ Hc).
    + apply nth_error_None in Hc.
      pose proof (Hch r (or_introl eq_refl)). lia.
Qed.

Lemma reflex_points_only_IndexError (rs : list Recording) :
  forall ms hs vs e,
    EMGSession.reflex_points self channel_index rs ms hs vs = Raise e ->
    e = IndexError.
Proof.
  induction rs as [|r rs IH]; intros ms hs vs e H; [discriminate|].
  cbn [EMGSession.reflex_points] in H. unfold py_index in H.
  destruct (nth_error (channel_data r) channel_index); cbn [bind] in H;
    [now apply IH in H | now injection H].
Qed.

Lemma reflex_points_missing (rs : list Recording) (recording : Recording) :
  In recording rs ->
  (length (channel_data recording) <= channel_index)%nat ->
  forall ms hs vs,
    EMGSession.reflex_points self channel_index rs ms hs vs = Raise IndexError.
Proof.
  induction rs as [|r rs IH]; intros Hin Hlen ms hs vs; [destruct Hin|].
  cbn [EMGSession.reflex_points]. unfold py_index.
  destruct (nth_error (channel_data r) channel_index) as [c|] eqn:Hc;
    [|reflexivity].
  cbn [bind]. destruct Hin as [->|Hin]; [|now apply IH].
  assert (channel_index < length (channel_data recording))%nat
    by (apply nth_error_Some; congruence).
  lia.
Qed.

End ReflexPoints.

(** X18. When every recording has all the declared channels (and there is
    at least one), the session's [plot_reflex_curves] returns one scatter
    per channel: its x values are the stimulus voltages of the recordings in
    their stored order, and its M and H values are the windowed average
    amplitudes of that channel, one per recording in the same order. *)
Theorem session_plot_reflex_curves_scatter (self : EMGSession.t) :
  (1 <= EMGSession.num_channels self)%nat ->
  (forall r, In r (EMGSession.recordings self) ->
     (EMGSession.num_channels self <= length (channel_data r))%nat) ->
  EMGSession.plot_reflex_curves self
  = Return (map (fun channel_index =>
       Scatter (axis_index (EMGSession.num_channels self) channel_index)
         (map stimulus_v (EMGSession.recordings self))
         (map (amplitude_of channel_index (EMGSession.m_start self)
                 (EMGSession.m_end self) (EMGSession.scan_rate self))
              (EMGSession.recordings self))
         (map (amplitude_of channel_index (EMGSession.h_start self)
                 (EMGSession.h_end self) (EMGSession.scan_rate self))
              (EMGSession.recordings self)))
       (seq 0 (EMGSession.num_channels self))).
Proof.
  intros Hn Hch. unfold EMGSession.plot_reflex_curves.
  rewrite (subplots_some _ Hn). cbn [bind].
  rewrite <- flat_map_singleton. apply for_each_return.
  intros i Hi. apply in_seq in Hi.
  rewrite reflex_points_all
    by (intros r Hr; pose proof (Hch r Hr); lia).
  cbn [bind app fst snd].
  unfold axis_of, axis_index.
  destruct (Nat.eqb (EMGSession.num_channels self) 1); [reflexivity|].
  replace (Nat.ltb i (EMGSession.num_channels self)) with true
    by (symmetry; apply Nat.ltb_lt; lia).
  reflexivity.
Qed.

Lemma session_plot_reflex_curves_scatter_witness :
  (1 <= EMGSession.num_channels MixedExamples.wide_session)%nat /\
  (forall r, In r (EMGSession.recordings MixedExamples.wide_session) ->
     (EMGSession.num_channels MixedExamples.wide_session
      <= length (channel_data r))%nat) /\
  exists drawn,
    EMGSession.plot_reflex_curves MixedExamples.wide_session = Return drawn /\
    length drawn = 2%nat.
Proof.
  assert (Hn : (1 <= EMGSession.num_channels MixedExamples.wide_session)%nat)
    by (simpl; lia).
  assert (Hch : forall r,
             In r (EMGSession.recordings MixedExamples.wide_session) ->
             (EMGSession.num_channels MixedExamples.wide_session
              <= length (channel_data r))%nat).
  { intros r [<-|[]]. simpl. lia. }
  split; [exact Hn|]. split; [exact Hch|].
  eexists. split.
  - exact (session_plot_reflex_curves_scatter MixedExamples.wide_session Hn Hch).
  - reflexivity.
Defined.

(** X19. A recording with fewer channels than the session declares makes
    the session's [plot_reflex_curves] raise [IndexError]: nothing is drawn,
    not even for the channels every recording has. *)
Theorem session_plot_reflex_curves_missing_channel
    (self : EMGSession.t) (recording : Recording) :
  In recording (EMGSession.recordings self) ->
  (length (channel_data recording) < EMGSession.num_channels self)%nat ->
  EMGSession.plot_reflex_curves self = Raise IndexError.
Proof.
  intros Hr Hlen. unfold EMGSession.plot_reflex_curves.
  rewrite subplots_some by lia. cbn [bind].
  apply for_each_raise_only with (x := length (channel_data recording)).
  - intros i _ e H.
    destruct (EMGSession.reflex_points self i (EMGSession.recordings self) [] [] [])
      as [pts|e'] eqn:E; cbn [bind] in H.
    + destruct (axis_of (EMGSession.num_channels self) i) eqn:Ea;
        [discriminate|].
      cbn [bind] in H. injection H as <-.
      exact (axis_of_only_IndexError _ _ _ Ea).
    + injection H as <-.
      exact (reflex_points_only_IndexError _ _ _ _ _ _ _ E).
  - apply in_seq. lia.
  - rewrite (reflex_points_missing self _ _ recording Hr (Nat.le_refl _)).
    reflexivity.
Qed.

Lemma session_plot_reflex_curves_missing_channel_witness :
  let self :=
    EMGSession.load_session_data Examples.config
      {| EMGSession.data_session_info :=
           {| EMGSession.info_session_name := String.EmptyString;
              EMGSession.info_num_channels := 2;
              EMGSession.info_scan_rate := 10000;
              EMGSession.info_num_samples := 200;
              EMGSession.info_stim_duration := 1 # 10;
              EMGSession.info_stim_interval := 5;
              EMGSession.info_emg_amp_gains := [1000%Z; 1000%Z] |};
         EMGSession.data_recordings := [Examples.recording_at 1] |} in
  In (Examples.recording_at 1) (EMGSession.recordings self) /\
  (length (channel_data (Examples.recording_at 1))
   < EMGSession.num_channels self)%nat /\
  EMGSession.plot_reflex_curves self = Raise IndexError.
Proof.
  cbv zeta.
  split; [left; reflexivity|]. split; [simpl; lia|].
  apply (session_plot_reflex_curves_missing_channel _ (Examples.recording_at 1)).
  - left; reflexivity.
  - simpl; lia.
Defined.

(** ** Channel names *)

Lemma channel_title_returns (channel_names : list String.string)
    (num_channels channel_index : nat) :
  (channel_index < num_channels)%nat ->
  channel_names = [] \/ (num_channels <= length channel_names)%nat
  \/ num_channels = 1%nat ->
  exists t,
    DatasetTitles.channel_title channel_names num_channels channel_index
    = Return t.
Proof.
  intros Hi H. unfold DatasetTitles.channel_title, DatasetTitles.customNames.
  destruct (Nat.eqb num_channels 1) eqn:E1.
  - apply Nat.eqb_eq in E1. subst num_channels.
    destruct channel_names as [|a [|b l]]; cbn; eexists; reflexivity.
  - apply Nat.eqb_neq in E1.
    destruct H as [->|[H|H]]; [cbn; eexists; reflexivity | | contradiction].
    unfold py_index.
    destruct (nth_error channel_names channel_index) as [name|] eqn:En;
      [|apply nth_error_None in En; lia].
    destruct channel_names as [|a l]; [simpl in H; lia|].
    cbn [bind].
    destruct (Nat.eqb (length (a :: l)) 0); [eexists; reflexivity|].
    destruct (negb (Nat.eqb (length (a :: l)) num_channels));
      eexists; reflexivity.
Qed.

(** X20. Channel names cannot make the dataset's plot fail when the list is
    empty, or at least as long as the channel count, or there is a single
    channel: the named call then returns exactly when the plain one does,
    with the same curves in the same order. *)
Theorem dataset_plot_names_harmless
    (np_sqrt : Q -> Q) (self : EMGDataset.t)
    (channel_names : list String.string) :
  channel_names = []
  \/ (EMGDataset.num_channels self <= length channel_names)%nat
  \/ EMGDataset.num_channels self = 1%nat ->
  except_map (map fst)
    (DatasetTitles.plot_reflex_curves np_sqrt self channel_names)
  = EMGDataset.plot_reflex_curves np_sqrt self.
Proof.
  intros H.
  unfold DatasetTitles.plot_reflex_curves, EMGDataset.plot_reflex_curves.
  destruct (subplots (EMGDataset.num_channels self)); [|reflexivity].
  cbn [bind].
  destruct (EMGDataset.stimulus_voltages self) as [voltages|]; [|reflexivity].
  cbn [bind]. symmetry. apply for_each_map.
  intros i Hi. apply in_seq in Hi.
  destruct (EMGDataset.mean_std_loop np_sqrt self i voltages [] [] [] [])
    as [[[[mm ms] hm] hs]|]; [|reflexivity].
  cbn [bind].
  destruct (axis_of (EMGDataset.num_channels self) i); [|reflexivity].
  cbn [bind].
  destruct (channel_title_returns channel_names
              (EMGDataset.num_channels self) i) as [t ->]; [lia | exact H |].
  reflexivity.
Qed.

Lemma dataset_plot_names_harmless_witness :
  (EMGDataset.num_channels Examples.dataset
   <= length [String.EmptyString; String.EmptyString])%nat /\
  except_map (map fst)
    (DatasetTitles.plot_reflex_curves Qsqrt_approx Examples.dataset
       [String.EmptyString; String.EmptyString])
  = EMGDataset.plot_reflex_curves Qsqrt_approx Examples.dataset.
Proof.
  assert (H : (EMGDataset.num_channels Examples.dataset
               <= length [String.EmptyString; String.EmptyString])%nat)
    by (simpl; lia).
  split; [exact H|].
  exact (dataset_plot_names_harmless Qsqrt_approx Examples.dataset
           [String.EmptyString; String.EmptyString] (or_intror (or_introl H))).
Defined.

(** X21. With several channels, a non-empty list of channel names shorter
    than the channel count does not fall back to the default titles in the
    dataset's plot: where the plain call would have drawn its curves, the
    named call raises [IndexError]. *)
Theorem dataset_plot_short_names_raise
    (np_sqrt : Q -> Q) (self : EMGDataset.t)
    (channel_names : list String.string) (drawn : list artist) :
  channel_names <> [] ->
  (length channel_names < EMGDataset.num_channels self)%nat ->
  EMGDataset.plot_reflex_curves np_sqrt self = Return drawn ->
  DatasetTitles.plot_reflex_curves np_sqrt self channel_names
  = Raise IndexError.
Proof.
  intros Hne Hlen.
  unfold DatasetTitles.plot_reflex_curves, EMGDataset.plot_reflex_curves.
  destruct (subplots (EMGDataset.num_channels self)); [|discriminate].
  cbn [bind].
  destruct (EMGDataset.stimulus_voltages self) as [voltages|]; [|discriminate].
  cbn [bind]. intros Hplain.
  assert (Hall : forall i, In i (seq 0 (EMGDataset.num_channels self)) ->
            exists mm ms hm hs ax,
              EMGDataset.mean_std_loop np_sqrt self i voltages [] [] [] []
              = Return (mm, ms, hm, hs) /\
              axis_of (EMGDataset.num_channels self) i = Return ax).
  { revert drawn Hplain.
    induction (seq 0 (EMGDataset.num_channels self)) as [|j js IH];
      intros drawn Hplain i Hi; [destruct Hi|].
    cbn [for_each] in Hplain.
    destruct (EMGDataset.mean_std_loop np_sqrt self j voltages [] [] [] [])
      as [[[[mm ms] hm] hs]|] eqn:E; [|discriminate].
    cbn [bind] in Hplain.
    destruct (axis_of (EMGDataset.num_channels self) j) as [ax|] eqn:Ea;
      [|discriminate].
    cbn [bind] in Hplain.
    destruct (for_each _ js) as [rest|] eqn:Er; [|discriminate].
    destruct Hi as [<-|Hi].
    - exists mm, ms, hm, hs, ax. now rewrite E.
    - exact (IH rest eq_refl i Hi). }
  assert (Htitle : forall i e,
            DatasetTitles.channel_title channel_names
              (EMGDataset.num_channels self) i = Raise e -> e = IndexError).
  { intros i e. unfold DatasetTitles.channel_title, py_index.
    destruct (Nat.eqb (EMGDataset.num_channels self) 1).
    - destruct (DatasetTitles.customNames _ _); [|discriminate].
      destruct (nth_error channel_names 0); cbn [bind]; [discriminate|].
      now intros [= <-].
    - destruct channel_names as [|nm nms]; [congruence|].
      destruct (nth_error (nm :: nms) i); cbn [bind]; [|now intros [= <-]].
      destruct (DatasetTitles.customNames _ _); discriminate. }
  apply for_each_raise_only with (x := length channel_names).
  - intros i Hi e H.
    destruct (Hall i Hi) as (mm & ms & hm & hs & ax & E & Ea).
    rewrite E in H. cbn [bind] in H. rewrite Ea in H. cbn [bind] in H.
    destruct (DatasetTitles.channel_title channel_names
                (EMGDataset.num_channels self) i) as [t|e'] eqn:Et;
      [discriminate|].
    cbn [bind] in H. injection H as <-. exact (Htitle _ _ Et).
  - apply in_seq. lia.
  - assert (Hin : In (length channel_names)
                    (seq 0 (EMGDataset.num_channels self)))
      by (apply in_seq; lia).
    destruct (Hall _ Hin) as (mm & ms & hm & hs & ax & E & Ea).
    rewrite E. cbn [bind]. rewrite Ea. cbn [bind].
    unfold DatasetTitles.channel_title.
    replace (Nat.eqb (EMGDataset.num_channels self) 1) with false.
    + destruct channel_names as [|nm nms]; [congruence|].
      unfold py_index.
      replace (nth_error (nm :: nms) (length (nm :: nms))) with (@None String.string)
        by (symmetry; apply nth_error_None; lia).
      reflexivity.
    + symmetry. apply Nat.eqb_neq.
      destruct channel_names; [congruence | simpl in Hlen; lia].
Qed.

Lemma dataset_plot_short_names_raise_witness :
  let names := [String.EmptyString] in
  EMGDataset.__init__ Examples.config [MixedExamples.wide_session]
  = Return MixedExamples.wide_dataset /\
  names <> [] /\
  (length names < EMGDataset.num_channels MixedExamples.wide_dataset)%nat /\
  (exists drawn,
     EMGDataset.plot_reflex_curves Qsqrt_approx MixedExamples.wide_dataset
     = Return drawn) /\
  DatasetTitles.plot_reflex_curves Qsqrt_approx MixedExamples.wide_dataset names
  = Raise IndexError.
Proof.
  cbv zeta.
  assert (Hne : [String.EmptyString] <> []) by discriminate.
  assert (Hlen : (length [String.EmptyString]
                  < EMGDataset.num_channels MixedExamples.wide_dataset)%nat)
    by (simpl; lia).
  split; [reflexivity|]. split; [exact Hne|]. split; [exact Hlen|].
  split; [eexists; vm_compute; reflexivity|].
  apply (dataset_plot_short_names_raise Qsqrt_approx
           MixedExamples.wide_dataset [String.EmptyString]
           (match EMGDataset.plot_reflex_curves Qsqrt_approx
                    MixedExamples.wide_dataset with
            | Return d => d
            | Raise _ => []
            end) Hne Hlen).
  vm_compute; reflexivity.
Defined.
